(** * dataeng-utils: naming derivation and the ingestion metadata document

    A shallow embedding of two modules of the repository,

    - [dataeng/utils/naming/naming.py]: bucket names, partition prefixes and
      staging dataset identifiers, and
    - [dataeng/utils/metadata/common.py]: the read-modify-write operations on
      the per data source [metadata.json] document,

    together with the properties their specification states about them.

    Conventions.  A Python [str] is a Rocq [string]; the text handled by the
    naming functions is ASCII, so that [str.lower], [str.zfill], the regular
    expression class [\W] and [encode("utf-8")] act on single bytes.  A Python
    value that may be [None] is an [option].  A raised exception is the
    [Raise] case of [result]. *)

From stdpp Require Import gmap strings list fin_maps.
From Stdlib Require Import ZArith Ascii.
From Stdlib Require DecimalString.

(** ** Python string primitives used by the source *)

Module Str.

Definition of_list : list ascii → string := String.string_of_list_ascii.
Definition to_list : string → list ascii := String.list_ascii_of_string.

Definition code (c : ascii) : nat := nat_of_ascii c.

Definition is_upper (c : ascii) : bool :=
  (65 <=? code c) && (code c <=? 90).

Definition is_alnum (c : ascii) : bool :=
  ((48 <=? code c) && (code c <=? 57))
  || ((65 <=? code c) && (code c <=? 90))
  || ((97 <=? code c) && (code c <=? 122)).

(** [\w]: a letter, a digit or the underscore. *)
Definition is_word (c : ascii) : bool := is_alnum c || bool_decide (c = "_"%char).

Definition lower_char (c : ascii) : ascii :=
  if is_upper c then ascii_of_nat (code c + 32) else c.

(** [s.lower()] *)
Fixpoint lower (s : string) : string :=
  match s with
  | EmptyString => EmptyString
  | String c s' => String (lower_char c) (lower s')
  end.

(** [c * n] for a one character string [c] *)
Fixpoint replicate (n : nat) (c : ascii) : string :=
  match n with
  | O => EmptyString
  | S n' => String c (replicate n' c)
  end.

Definition is_sign (c : ascii) : bool :=
  bool_decide (c = "+"%char) || bool_decide (c = "-"%char).

(** [s.zfill(width)]: zeros are inserted on the left, after a leading sign,
    until the text has [width] characters; a text that is already that long
    is returned as it is. *)
Definition zfill (s : string) (width : nat) : string :=
  let n := String.length s in
  if width <=? n then s
  else
    let fill := replicate (width - n) "0" in
    match s with
    | String c rest => if is_sign c then String c (fill +:+ rest) else fill +:+ s
    | EmptyString => fill
    end.

(** [s.replace(a, b)] for one character strings [a] and [b] *)
Fixpoint replace (a b : ascii) (s : string) : string :=
  match s with
  | EmptyString => EmptyString
  | String c s' => String (if bool_decide (c = a) then b else c) (replace a b s')
  end.

(** [s.lstrip(c)], [s.rstrip(c)] and [s.strip(c)] for a one character [c] *)
Fixpoint lstrip (c : ascii) (s : string) : string :=
  match s with
  | String x s' => if bool_decide (x = c) then lstrip c s' else s
  | EmptyString => EmptyString
  end.

Fixpoint rstrip (c : ascii) (s : string) : string :=
  match s with
  | EmptyString => EmptyString
  | String x s' =>
      match rstrip c s' with
      | EmptyString => if bool_decide (x = c) then EmptyString else String x EmptyString
      | t => String x t
      end
  end.

Definition strip (c : ascii) (s : string) : string := rstrip c (lstrip c s).

(** [re.compile(r"[\W]").sub(repl, s)] for a one character [repl] *)
Fixpoint sub_nonword (repl : ascii) (s : string) : string :=
  match s with
  | EmptyString => EmptyString
  | String c s' => String (if is_word c then c else repl) (sub_nonword repl s')
  end.

(** [s.startswith(p)] *)
Definition startswith (s p : string) : bool := String.prefix p s.

(** [s[:n]] *)
Definition take (n : nat) (s : string) : string := String.substring 0 n s.

(** [str(v)] as [str.format] renders a field that is a string or [None] *)
Definition format_field (v : option string) : string := default "None" v.

End Str.

(** ** SHA-1 ([hashlib.sha1]), after FIPS 180-4

    32-bit words are integers taken modulo [2 ^ 32]; a message is the list of
    its bytes. *)

Module SHA1.
Local Open Scope Z_scope.

Definition w32 (x : Z) : Z := x mod 2 ^ 32.
Definition add32 (x y : Z) : Z := w32 (x + y).
Definition rotl (n x : Z) : Z :=
  w32 (Z.lor (Z.shiftl x n) (Z.shiftr x (32 - n))).
Definition not32 (x : Z) : Z := Z.lxor x 0xffffffff.

Definition f (t : nat) (b c d : Z) : Z :=
  if (t <? 20)%nat then Z.lor (Z.land b c) (Z.land (not32 b) d)
  else if (t <? 40)%nat then Z.lxor (Z.lxor b c) d
  else if (t <? 60)%nat then
    Z.lor (Z.lor (Z.land b c) (Z.land b d)) (Z.land c d)
  else Z.lxor (Z.lxor b c) d.

Definition K (t : nat) : Z :=
  if (t <? 20)%nat then 0x5a827999
  else if (t <? 40)%nat then 0x6ed9eba1
  else if (t <? 60)%nat then 0x8f1bbcdc
  else 0xca62c1d6.

(** the [n] low bytes of [x], most significant first *)
Fixpoint be_bytes (n : nat) (x : Z) : list Z :=
  match n with
  | O => []
  | S n' => Z.shiftr x (8 * Z.of_nat n') mod 256 :: be_bytes n' x
  end.

(** padding: the byte [0x80], zeros up to 56 modulo 64, and the length of
    the message in bits on 64 bits *)
Definition pad (msg : list Z) : list Z :=
  let len := Z.of_nat (length msg) in
  msg ++ [0x80] ++ replicate (Z.to_nat ((55 - len) mod 64)) 0 ++ be_bytes 8 (8 * len).

Definition be_word (bs : list Z) : Z :=
  foldl (λ acc b, acc * 256 + b) 0 bs.

Fixpoint words (n : nat) (bs : list Z) : list Z :=
  match n with
  | O => []
  | S n' => be_word (take 4 bs) :: words n' (drop 4 bs)
  end.

(** the message schedule, newest word first: [W(t-1) :: W(t-2) :: ...] *)
Fixpoint schedule (n : nat) (rev_w : list Z) : list Z :=
  match n with
  | O => rev_w
  | S n' =>
      let wt := rotl 1 (Z.lxor (Z.lxor (nth 2 rev_w 0) (nth 7 rev_w 0))
                               (Z.lxor (nth 13 rev_w 0) (nth 15 rev_w 0))) in
      schedule n' (wt :: rev_w)
  end.

Definition state : Type := Z * Z * Z * Z * Z.

Fixpoint rounds (t : nat) (ws : list Z) (s : state) : state :=
  match ws with
  | [] => s
  | wt :: ws' =>
      let '(a, b, c, d, e) := s in
      let tmp := add32 (add32 (add32 (add32 (rotl 5 a) (f t b c d)) e) (K t)) wt in
      rounds (S t) ws' (tmp, a, rotl 30 b, c, d)
  end.

Definition compress (h : state) (block : list Z) : state :=
  let ws := reverse (schedule 64 (reverse (words 16 block))) in
  let '(a, b, c, d, e) := rounds 0 ws h in
  let '(h0, h1, h2, h3, h4) := h in
  (add32 h0 a, add32 h1 b, add32 h2 c, add32 h3 d, add32 h4 e).

Fixpoint blocks (n : nat) (h : state) (bs : list Z) : state :=
  match n with
  | O => h
  | S n' => blocks n' (compress h (take 64 bs)) (drop 64 bs)
  end.

Definition init : state :=
  (0x67452301, 0xefcdab89, 0x98badcfe, 0x10325476, 0xc3d2e1f0).

Definition digest (msg : list Z) : list Z :=
  let p := pad msg in
  let '(h0, h1, h2, h3, h4) := blocks (length p / 64) init p in
  be_bytes 4 h0 ++ be_bytes 4 h1 ++ be_bytes 4 h2 ++ be_bytes 4 h3 ++ be_bytes 4 h4.

Definition hex_digit (n : Z) : ascii :=
  nth (Z.to_nat n) (Str.to_list "0123456789abcdef") "0"%char.

Definition hex_byte (b : Z) : list ascii :=
  [hex_digit (b / 16); hex_digit (b mod 16)].

(** [text.encode("utf-8")] on ASCII text *)
Definition encode (text : string) : list Z :=
  (λ c, Z.of_nat (nat_of_ascii c)) <$> Str.to_list text.

(** [h = hashlib.sha1(); h.update(data); h.hexdigest()] *)
Definition hexdigest (data : list Z) : string :=
  Str.of_list (mjoin (hex_byte <$> digest data)).

End SHA1.

(** ** [uuid.uuid4] and [str(uuid)]

    A UUID is its 128-bit integer ([UUID.int]); [uuid4] draws it at random, so
    the drawn value is an argument of the functions that call it.  [str]
    prints the 32 hexadecimal digits in groups of 8, 4, 4, 4 and 12. *)

Module UUID.

Definition hex_digit (n : N) : ascii :=
  nth (N.to_nat n) (Str.to_list "0123456789abcdef") "0"%char.

(** ['%0kx' % n] for [n < 16 ^ k] *)
Fixpoint hex (k : nat) (n : N) : list ascii :=
  match k with
  | O => []
  | S k' => hex k' (n / 16)%N ++ [hex_digit (n mod 16)%N]
  end.

(** [sep.join((h[:8], h[8:12], h[12:16], h[16:20], h[20:]))] *)
Definition grouped (sep : ascii) (h : list ascii) : list ascii :=
  take 8 h ++ sep :: take 4 (drop 8 h) ++ sep :: take 4 (drop 12 h)
  ++ sep :: take 4 (drop 16 h) ++ sep :: drop 20 h.

Definition to_str (int : N) : string :=
  Str.of_list (grouped "-" (hex 32 int)).


End UUID.

(** ** [naming.py] *)

Module Naming.

Definition DOMAIN_NAME : string := "dataeng.com".
Definition DAGS_BUCKET_PREFIX : string := "composer".
Definition DATAFLOW_BUCKET_PREFIX : string := "dataflow".
Definition TEST_BUCKET_PREFIX : string := "test".
Definition DAGS_PREFIX : string := "dags".

(** [hash_sha1 = hashlib.sha1(); hash_sha1.update(text.encode("utf-8"));
    hash_sha1.hexdigest()[:10]] *)
Definition hashed (text : string) : string :=
  Str.take 10 (SHA1.hexdigest (SHA1.encode text)).

Definition get_ingestion_bucket_name (project_id org_name group_name : string) : string :=
  let org_name := Str.lower org_name in
  let group_name := Str.lower group_name in
  let text := project_id +:+ org_name +:+ group_name in
  hashed text +:+ "." +:+ DOMAIN_NAME.

Definition get_modeling_bucket_name
    (project_id org_name group_name repo_name : string) : string :=
  let org_name := Str.lower org_name in
  let group_name := Str.lower group_name in
  let repo_name := Str.lower repo_name in
  let text := project_id +:+ org_name +:+ group_name +:+ repo_name in
  hashed text +:+ "." +:+ DOMAIN_NAME.

Definition get_dags_bucket_name (project_id : string) : string :=
  DAGS_BUCKET_PREFIX +:+ "-" +:+ hashed project_id +:+ "." +:+ DOMAIN_NAME.

Definition get_dataflow_bucket_name (project_id : string) : string :=
  DATAFLOW_BUCKET_PREFIX +:+ "-" +:+ hashed project_id +:+ "." +:+ DOMAIN_NAME.

Definition get_test_bucket_name (project_id : string) : string :=
  TEST_BUCKET_PREFIX +:+ "-" +:+ hashed project_id +:+ "." +:+ DOMAIN_NAME.

Definition get_dags_location (dags_bucket_name : string) : string :=
  "gs://" +:+ dags_bucket_name +:+ "/" +:+ DAGS_PREFIX.

(** [_zfill_with_len(val, len)]: the placeholder and [None] are returned as
    they are. *)
Definition _zfill_with_len (val : option string) (len : nat) : option string :=
  match val with
  | None => None
  | Some v => if bool_decide (v = "_") then Some v else Some (Str.zfill v len)
  end.

(** [get_prefix]; the keyword arguments that the source defaults to ["_"]
    are passed explicitly.  The time components are strings or [None]. *)
Definition get_prefix (data_source data_source_type format location : string)
    (year month day hour minute second : option string) : string :=
  data_source +:+ "/" +:+ data_source_type +:+ "/" +:+ location +:+ "/"
  +:+ Str.format_field (_zfill_with_len year 4) +:+ "/"
  +:+ Str.format_field (_zfill_with_len month 2) +:+ "/"
  +:+ Str.format_field (_zfill_with_len day 2) +:+ "/"
  +:+ Str.format_field (_zfill_with_len hour 2) +:+ "/"
  +:+ Str.format_field (_zfill_with_len minute 2) +:+ "/"
  +:+ Str.format_field (_zfill_with_len second 2) +:+ "/"
  +:+ format +:+ "/".

(** [get_staging_dataset_id]; [uuid4] is the value that [uuid.uuid4()]
    returns in this call. *)
Definition get_staging_dataset_id (data_source data_source_type : string)
    (uuid4 : N) : string :=
  let data_source := Str.sub_nonword "_" data_source in
  let data_source := Str.strip "_" data_source in
  let data_source_type := Str.sub_nonword "_" data_source_type in
  let data_source_type := Str.strip "_" data_source_type in
  let random_string := Str.replace "-" "_" (UUID.to_str uuid4) in
  "staging_" +:+ data_source +:+ "_" +:+ data_source_type +:+ "_" +:+ random_string.

Definition get_success_file_location (data_source data_source_type : string) : string :=
  data_source +:+ "/" +:+ data_source_type +:+ "/_SUCCESS".

End Naming.

(** ** Python values, exceptions and the operations on them *)

(** The values [json.loads] returns: [None], booleans, integers, floats (kept
    by their [repr]: no operation of the source looks into one), strings,
    lists and dictionaries with string keys.  Two dictionaries are equal when
    they bind the same keys to equal values, whatever their order, as in
    Python. *)
#[warnings="-register-all"]
Inductive json : Type :=
  | JNull
  | JBool (b : bool)
  | JInt (n : Z)
  | JFloat (repr : string)
  | JStr (s : string)
  | JList (l : list json)
  | JDict (m : gmap string json).

Inductive exn : Type :=
  | TypeError
  | KeyError (key : string)
  | NotFound
  | JSONDecodeError.

Inductive result (A : Type) : Type :=
  | Ok (a : A)
  | Raise (e : exn).
Arguments Ok {A} a.
Arguments Raise {A} e.

Global Instance result_ret : MRet result := λ A a, Ok a.

Global Instance result_bind : MBind result := λ A B k r,
  match r with
  | Ok a => k a
  | Raise e => Raise e
  end.

Definition raises {A : Type} (r : result A) : Prop := ∃ e, r = Raise e.

Module Py.

Definition dict : json := JDict ∅.

(** [o is None] *)
Definition is_None (o : json) : bool :=
  match o with JNull => true | _ => false end.

(** [key in o] for a string [key]: key membership in a dictionary, element
    membership in a list, substring test in a string; the other values are
    not containers. *)
Definition contains (key : string) (o : json) : result bool :=
  match o with
  | JDict m => Ok (bool_decide (is_Some (m !! key)))
  | JList l =>
      Ok (existsb (λ x, match x with
                        | JStr s => bool_decide (s = key)
                        | _ => false
                        end) l)
  | JStr s => Ok (bool_decide (is_Some (String.index 0 key s)))
  | JNull | JBool _ | JInt _ | JFloat _ => Raise TypeError
  end.

(** [o[key]] for a string [key] *)
Definition getitem (o : json) (key : string) : result json :=
  match o with
  | JDict m =>
      match m !! key with
      | Some v => Ok v
      | None => Raise (KeyError key)
      end
  | _ => Raise TypeError
  end.

(** [o[key] = v] for a string [key] *)
Definition setitem (o : json) (key : string) (v : json) : result json :=
  match o with
  | JDict m => Ok (JDict (<[key := v]> m))
  | _ => Raise TypeError
  end.

(** [del o[key]] for a string [key] *)
Definition delitem (o : json) (key : string) : result json :=
  match o with
  | JDict m =>
      match m !! key with
      | Some _ => Ok (JDict (delete key m))
      | None => Raise (KeyError key)
      end
  | _ => Raise TypeError
  end.

(** [o[k1]...[kn]] *)
Fixpoint subscript (o : json) (path : list string) : result json :=
  match path with
  | [] => Ok o
  | k :: path' => inner ← getitem o k; subscript inner path'
  end.

(** The statements [o[k1]...[kn][key] = v] and [del o[k1]...[kn][key]]
    change the dictionary that [o[k1]...[kn]] evaluates to.  That dictionary
    is shared with [o], so the change is seen through [o]: the functional
    reading rebuilds [o] around the changed dictionary. *)
Fixpoint modify (f : json → result json) (o : json) (path : list string) : result json :=
  match path with
  | [] => f o
  | k :: path' =>
      inner ← getitem o k;
      inner' ← modify f inner path';
      setitem o k inner'
  end.

Definition assign (o : json) (path : list string) (key : string) (v : json) : result json :=
  modify (λ target, setitem target key v) o path.

Definition del (o : json) (path : list string) (key : string) : result json :=
  modify (λ target, delitem target key) o path.

(** the truth value of [o], as [if o:] tests it: [None], [False], zero, and
    the empty string, list and dictionary are false *)
Definition truthy (o : json) : bool :=
  match o with
  | JNull => false
  | JBool b => b
  | JInt n => negb (n =? 0)%Z
  | JFloat repr => negb (bool_decide (repr = "0.0") || bool_decide (repr = "-0.0"))
  | JStr s => negb (String.length s =? 0)
  | JList l => negb (length l =? 0)
  | JDict m => negb (size m =? 0)
  end.

(** [datetime]: the fields of a [datetime.datetime] *)
Record datetime : Type := Datetime {
  year : nat; month : nat; day : nat;
  hour : nat; minute : nat; second : nat; microsecond : nat
}.

Definition digit (n : nat) : ascii := ascii_of_nat (48 + n mod 10).

(** ['%0kd' % n] for [n < 10 ^ k] *)
Fixpoint dec (k : nat) (n : nat) : string :=
  match k with
  | O => EmptyString
  | S k' => dec k' (n / 10) +:+ String (digit n) EmptyString
  end.

(** [str(dt)]: [YYYY-MM-DD HH:MM:SS], followed by [.ffffff] when the
    microseconds are not zero *)
Definition datetime_str (dt : datetime) : string :=
  dec 4 (year dt) +:+ "-" +:+ dec 2 (month dt) +:+ "-" +:+ dec 2 (day dt)
  +:+ " " +:+ dec 2 (hour dt) +:+ ":" +:+ dec 2 (minute dt)
  +:+ ":" +:+ dec 2 (second dt)
  +:+ (if bool_decide (microsecond dt = 0) then EmptyString else "." +:+ dec 6 (microsecond dt)).

(** chronological order of two datetimes, field by field *)
Definition datetime_key (dt : datetime) : list nat :=
  [year dt; month dt; day dt; hour dt; minute dt; second dt; microsecond dt].

Fixpoint lex_le (a b : list nat) : bool :=
  match a, b with
  | x :: a', y :: b' => (x <? y) || ((x =? y) && lex_le a' b')
  | [], _ => true
  | _ :: _, [] => false
  end.

Definition datetime_le (a b : datetime) : Prop :=
  lex_le (datetime_key a) (datetime_key b) = true.

End Py.

(** ** [metadata/common.py]

    The bucket that [storage_client.get_bucket(gcs_bucket)] returns is the map
    from blob names to blob bodies; the functions take it and return it
    changed.  A body is text: [upload_from_string] and
    [download_as_string().decode("utf-8")] are the identity on it, and a body
    that does not decode is a body that [json.loads] rejects.  The logger only
    records messages and is left out.

    [json.dumps(_, indent=2)] and [json.loads] belong to the Python library
    and stay parameters of the embedding, as does the value that
    [datetime.utcnow()] returns in a call. *)

Module Metadata.
Import Py.

Definition blob_exists (bucket : gmap string string) (blob : string) : bool :=
  bool_decide (is_Some (bucket !! blob)).

Definition download_as_string (bucket : gmap string string) (blob : string) : result string :=
  match bucket !! blob with
  | Some body => Ok body
  | None => Raise NotFound
  end.

Definition upload_from_string (bucket : gmap string string) (blob body : string)
    : gmap string string :=
  <[blob := body]> bucket.

(** ["{data_source}/{data_source_type}/metadata.json"] *)
Definition metadata_blob (data_source data_source_type : string) : string :=
  data_source +:+ "/" +:+ data_source_type +:+ "/metadata.json".

(** [if key not in o[k1]...[kn]: o[k1]...[kn][key] = dict()] *)
Definition ensure_dict (o : json) (path : list string) (key : string) : result json :=
  target ← subscript o path;
  present ← contains key target;
  if negb present then assign o path key dict else Ok o.

(** [if key in o[k1]...[kn]: del o[k1]...[kn][key]] *)
Definition discard (o : json) (path : list string) (key : string) : result json :=
  target ← subscript o path;
  present ← contains key target;
  if (present : bool) then del o path key else Ok o.

Section WithJson.
Variable json_dumps : json → string.
Variable json_loads : string → result json.

Definition get_metadata (bucket : gmap string string)
    (data_source data_source_type : string) : result json :=
  let blob := metadata_blob data_source data_source_type in
  if negb (blob_exists bucket blob) then Ok JNull
  else
    blob_string ← download_as_string bucket blob;
    metadata ← json_loads blob_string;
    Ok metadata.

(** the lines of [update_metadata] between
    the read and the write *)
Definition stamp_window (metadata : json) (market format prefix : string)
    (yesterday : bool) (utcnow : datetime) : result json :=
  let metadata := if is_None metadata then dict else metadata in
  metadata ← ensure_dict metadata [] "last_success";
  metadata ← ensure_dict metadata ["last_success"] format;
  metadata ← ensure_dict metadata ["last_success"; format] market;
  if negb yesterday then
    metadata ← assign metadata ["last_success"; format; market]
                 "last_updated" (JStr (datetime_str utcnow));
    assign metadata ["last_success"; format; market] "prefix" (JStr prefix)
  else
    metadata ← assign metadata ["last_success"; format; market]
                 "yesterday_last_updated" (JStr (datetime_str utcnow));
    assign metadata ["last_success"; format; market] "yesterday_prefix" (JStr prefix).

Definition update_metadata (bucket : gmap string string)
    (data_source data_source_type market format prefix : string)
    (yesterday : bool) (utcnow : datetime) : result (gmap string string) :=
  metadata ← get_metadata bucket data_source data_source_type;
  metadata ← stamp_window metadata market format prefix yesterday utcnow;
  let metadata_string := json_dumps metadata in
  let blob := metadata_blob data_source data_source_type in
  Ok (upload_from_string bucket blob metadata_string).

(** the lines of [remove_yesterday_metdata] between the read and the
    write *)
Definition clear_window (metadata : json) (market format : string) : result json :=
  metadata ← ensure_dict metadata [] "last_success";
  metadata ← ensure_dict metadata ["last_success"] format;
  metadata ← ensure_dict metadata ["last_success"; format] market;
  metadata ← discard metadata ["last_success"; format; market] "yesterday_last_updated";
  discard metadata ["last_success"; format; market] "yesterday_prefix".

Definition remove_yesterday_metdata (bucket : gmap string string)
    (data_source data_source_type market format : string)
    : result (gmap string string) :=
  metadata ← get_metadata bucket data_source data_source_type;
  if is_None metadata then Ok bucket
  else
    metadata ← clear_window metadata market format;
    let metadata_string := json_dumps metadata in
    let blob := metadata_blob data_source data_source_type in
    Ok (upload_from_string bucket blob metadata_string).

(** [update_custom_metadata]: the lines of [update_metadata], and the
    assignment of [custom_values] before the write *)
Definition update_custom_metadata (bucket : gmap string string)
    (data_source data_source_type market format prefix : string)
    (custom_values : json) (yesterday : bool) (utcnow : datetime)
    : result (gmap string string) :=
  metadata ← get_metadata bucket data_source data_source_type;
  metadata ← stamp_window metadata market format prefix yesterday utcnow;
  metadata ← (if truthy custom_values
              then assign metadata ["last_success"; format; market]
                     "custom_values" custom_values
              else Ok metadata);
  let metadata_string := json_dumps metadata in
  let blob := metadata_blob data_source data_source_type in
  Ok (upload_from_string bucket blob metadata_string).

End WithJson.

(** [mark_success]; [dt] is the value of [datetime.utcnow()] in the call *)
Definition mark_success (bucket : gmap string string) (success_file_location : string)
    (dt : datetime) : gmap string string :=
  let content := datetime_str dt in
  upload_from_string bucket success_file_location content.

End Metadata.

(** ** A reference [json.dumps(_, indent=2)] and [json.loads]

    Modelled from the Python library, for documents without floats: the
    printer writes what [json.dumps] writes with [indent=2] (the keys of a
    dictionary in the order of the map), the parser reads JSON text with
    integers for numbers.  The properties of [Metadata] hold for every
    [json_dumps] and [json_loads]; this pair instantiates them on concrete
    buckets. *)

Module Json.

Definition dquote : ascii := ascii_of_nat 34.
Definition backslash : ascii := ascii_of_nat 92.
Definition newline : ascii := ascii_of_nat 10.

Definition hex_digit (n : nat) : ascii :=
  nth n (Str.to_list "0123456789abcdef") "0"%char.

Definition escape (c : ascii) : list ascii :=
  let n := nat_of_ascii c in
  if n =? 34 then [backslash; dquote]
  else if n =? 92 then [backslash; backslash]
  else if n =? 10 then [backslash; "n"%char]
  else if n =? 13 then [backslash; "r"%char]
  else if n =? 9 then [backslash; "t"%char]
  else if n =? 8 then [backslash; "b"%char]
  else if n =? 12 then [backslash; "f"%char]
  else if (n <? 32) || (126 <? n) then
    [backslash; "u"%char; "0"%char; "0"%char; hex_digit (n / 16); hex_digit (n mod 16)]
  else [c].

Definition quote (s : string) : list ascii :=
  dquote :: (Str.to_list s ≫= escape) ++ [dquote].

Definition decimal (n : Z) : list ascii :=
  Str.to_list (DecimalString.NilZero.string_of_int (Z.to_int n)).

Definition indent (level : nat) : list ascii :=
  newline :: replicate (2 * level) " "%char.

Fixpoint join (sep : list ascii) (items : list (list ascii)) : list ascii :=
  match items with
  | [] => []
  | [x] => x
  | x :: items' => x ++ sep ++ join sep items'
  end.

Fixpoint encode (level : nat) (o : json) : list ascii :=
  match o with
  | JNull => Str.to_list "null"
  | JBool true => Str.to_list "true"
  | JBool false => Str.to_list "false"
  | JInt n => decimal n
  | JFloat repr => Str.to_list repr
  | JStr s => quote s
  | JList l =>
      match l with
      | [] => Str.to_list "[]"
      | _ =>
          "["%char :: indent (S level)
          ++ join (","%char :: indent (S level)) (encode (S level) <$> l)
          ++ indent level ++ ["]"%char]
      end
  | JDict m =>
      match map_to_list (encode (S level) <$> m) with
      | [] => Str.to_list "{}"
      | items =>
          "{"%char :: indent (S level)
          ++ join (","%char :: indent (S level))
               ((λ kv, quote kv.1 ++ Str.to_list ": " ++ kv.2) <$> items)
          ++ indent level ++ ["}"%char]
      end
  end.

Definition dumps (o : json) : string := Str.of_list (encode 0 o).

Fixpoint skip_ws (cs : list ascii) : list ascii :=
  match cs with
  | c :: cs' =>
      let n := nat_of_ascii c in
      if (n =? 32) || (n =? 10) || (n =? 13) || (n =? 9) then skip_ws cs' else cs
  | [] => []
  end.

Fixpoint strip_prefix (p cs : list ascii) : option (list ascii) :=
  match p, cs with
  | [], _ => Some cs
  | x :: p', c :: cs' => if bool_decide (x = c) then strip_prefix p' cs' else None
  | _ :: _, [] => None
  end.

Definition hex_value (c : ascii) : option nat :=
  let n := nat_of_ascii c in
  if (48 <=? n) && (n <=? 57) then Some (n - 48)
  else if (97 <=? n) && (n <=? 102) then Some (n - 87)
  else if (65 <=? n) && (n <=? 70) then Some (n - 55)
  else None.

Definition unescape (c : ascii) : option ascii :=
  let n := nat_of_ascii c in
  if n =? 34 then Some dquote
  else if n =? 92 then Some backslash
  else if n =? 47 then Some "/"%char
  else if n =? 110 then Some newline
  else if n =? 114 then Some (ascii_of_nat 13)
  else if n =? 116 then Some (ascii_of_nat 9)
  else if n =? 98 then Some (ascii_of_nat 8)
  else if n =? 102 then Some (ascii_of_nat 12)
  else None.

(** the text after an opening quote, up to the closing one *)
Fixpoint scan_string (cs acc : list ascii) : option (string * list ascii) :=
  match cs with
  | [] => None
  | c :: rest =>
      if bool_decide (c = dquote) then Some (Str.of_list (reverse acc), rest)
      else if bool_decide (c = backslash) then
        match rest with
        | [] => None
        | e :: rest' =>
            if bool_decide (e = "u"%char) then
              match rest' with
              | h1 :: h2 :: h3 :: h4 :: rest'' =>
                  match hex_value h1, hex_value h2, hex_value h3, hex_value h4 with
                  | Some 0, Some 0, Some a, Some b =>
                      scan_string rest'' (ascii_of_nat (16 * a + b) :: acc)
                  | _, _, _, _ => None
                  end
              | _ => None
              end
            else
              match unescape e with
              | Some x => scan_string rest' (x :: acc)
              | None => None
              end
        end
      else if nat_of_ascii c <? 32 then None
      else scan_string rest (c :: acc)
  end.

Definition is_digit (c : ascii) : bool :=
  (48 <=? nat_of_ascii c) && (nat_of_ascii c <=? 57).

Fixpoint span_digits (cs : list ascii) : list ascii * list ascii :=
  match cs with
  | c :: cs' =>
      if is_digit c then let '(ds, rest) := span_digits cs' in (c :: ds, rest)
      else ([], cs)
  | [] => ([], [])
  end.

Definition scan_int (cs : list ascii) : option (Z * list ascii) :=
  let '(sign, body) :=
    match cs with
    | c :: cs' => if bool_decide (c = "-"%char) then (["-"%char], cs') else ([], cs)
    | [] => ([], [])
    end in
  let '(ds, rest) := span_digits body in
  match ds with
  | [] => None
  | d :: ds' =>
      if bool_decide (d = "0"%char) && bool_decide (ds' ≠ []) then None
      else
        n ← DecimalString.NilZero.int_of_string (Str.of_list (sign ++ ds));
        Some (Z.of_int n, rest)
  end.

Section Containers.
Variable value : list ascii → option (json * list ascii).

Fixpoint elements (n : nat) (cs : list ascii) (acc : list json)
    : option (json * list ascii) :=
  match n with
  | O => None
  | S n' =>
      '(v, rest) ← value cs;
      match skip_ws rest with
      | c :: rest' =>
          if bool_decide (c = ","%char) then elements n' rest' (v :: acc)
          else if bool_decide (c = "]"%char) then Some (JList (reverse (v :: acc)), rest')
          else None
      | [] => None
      end
  end.

Fixpoint members (n : nat) (cs : list ascii) (acc : gmap string json)
    : option (json * list ascii) :=
  match n with
  | O => None
  | S n' =>
      after_quote ← strip_prefix [dquote] (skip_ws cs);
      '(key, rest) ← scan_string after_quote [];
      after_colon ← strip_prefix [":"%char] (skip_ws rest);
      '(v, rest) ← value after_colon;
      match skip_ws rest with
      | c :: rest' =>
          if bool_decide (c = ","%char) then members n' rest' (<[key := v]> acc)
          else if bool_decide (c = "}"%char) then Some (JDict (<[key := v]> acc), rest')
          else None
      | [] => None
      end
  end.
End Containers.

Fixpoint value (fuel : nat) (cs : list ascii) : option (json * list ascii) :=
  match fuel with
  | O => None
  | S fuel' =>
      match skip_ws cs with
      | [] => None
      | c :: rest =>
          if bool_decide (c = dquote) then
            '(s, rest') ← scan_string rest []; Some (JStr s, rest')
          else if bool_decide (c = "["%char) then
            match skip_ws rest with
            | c' :: rest' =>
                if bool_decide (c' = "]"%char) then Some (JList [], rest')
                else elements (value fuel') (length rest) rest []
            | [] => None
            end
          else if bool_decide (c = "{"%char) then
            match skip_ws rest with
            | c' :: rest' =>
                if bool_decide (c' = "}"%char) then Some (JDict ∅, rest')
                else members (value fuel') (length rest) rest ∅
            | [] => None
            end
          else if bool_decide (c = "n"%char) then
            rest' ← strip_prefix (Str.to_list "ull") rest; Some (JNull, rest')
          else if bool_decide (c = "t"%char) then
            rest' ← strip_prefix (Str.to_list "rue") rest; Some (JBool true, rest')
          else if bool_decide (c = "f"%char) then
            rest' ← strip_prefix (Str.to_list "alse") rest; Some (JBool false, rest')
          else
            '(n, rest') ← scan_int (c :: rest); Some (JInt n, rest')
      end
  end.

Definition loads (s : string) : result json :=
  let cs := Str.to_list s in
  match value (S (length cs)) cs with
  | Some (o, rest) =>
      match skip_ws rest with
      | [] => Ok o
      | _ :: _ => Raise JSONDecodeError
      end
  | None => Raise JSONDecodeError
  end.

End Json.

(** ** The wording of the specification, for the naming functions *)

Module NamingSpec.

(** "zero-pads to a fixed width": zeros in front of the text, behind its
    sign when it has one, as many as the text is short of [width] *)
Definition zero_padded (width : nat) (v : string) : string :=
  let zeros := Str.replicate (width - String.length v) "0" in
  match v with
  | String c rest => if Str.is_sign c then String c (zeros +:+ rest) else zeros +:+ v
  | EmptyString => zeros
  end.

(** a time component of the partition prefix: the placeholder as it is,
    any other text zero-padded *)
Definition time_field (width : nat) (v : string) : string :=
  if bool_decide (v = "_") then "_" else zero_padded width v.

(** a time component that may be [None] *)
Definition shown (width : nat) (v : option string) : string :=
  match v with
  | None => "None"
  | Some v => time_field width v
  end.

Definition unsigned (v : string) : Prop :=
  match v with
  | String c _ => Str.is_sign c = false
  | EmptyString => True
  end.

(** "replaces every non-alphanumeric character with [_]" *)
Fixpoint underscored (s : string) : string :=
  match s with
  | EmptyString => EmptyString
  | String c s' => String (if Str.is_alnum c then c else "_"%char) (underscored s')
  end.



End NamingSpec.

(** ** The wording of the specification, for the metadata document *)

Module MetadataSpec.
Import Py.

(** the entries of a dictionary; none for a value that is not a dictionary
    and for a missing value *)
Definition entries (o : option json) : gmap string json :=
  match o with
  | Some (JDict m) => m
  | _ => ∅
  end.

(** the value found by following [path] through nested dictionaries *)
Fixpoint dig (o : json) (path : list string) : option json :=
  match path with
  | [] => Some o
  | k :: path' =>
      match o with
      | JDict m => v ← m !! k; dig v path'
      | _ => None
      end
  end.

Definition formats (d : json) : gmap string json :=
  entries (dig d ["last_success"]).

Definition markets (d : json) (format : string) : gmap string json :=
  entries (dig d ["last_success"; format]).

(** the window of [(format, market)]: its fields, none when it is missing *)
Definition window (d : json) (format market : string) : gmap string json :=
  entries (dig d ["last_success"; format; market]).

Definition is_dict (o : json) : bool :=
  match o with JDict _ => true | _ => false end.

Definition dict_or_missing (o : option json) : bool :=
  match o with
  | None => true
  | Some o => is_dict o
  end.

(** The document states on which the window of [(format, market)] can be
    reached or created: the absent document, or a JSON object in which
    [last_success], the format and the market are objects where they are
    present. *)
Definition addressable (d : json) (format market : string) : bool :=
  (is_None d || is_dict d)
  && dict_or_missing (dig d ["last_success"])
  && dict_or_missing (dig d ["last_success"; format])
  && dict_or_missing (dig d ["last_success"; format; market]).

(** A Metadata Document of the data model: a JSON object whose
    [last_success], when present, maps formats to objects that map markets to
    window objects. *)
Definition document (d : json) : Prop :=
  match d with
  | JDict top =>
      match top !! "last_success" with
      | None => True
      | Some (JDict fm) =>
          map_Forall (λ _ f,
            match f with
            | JDict mm => map_Forall (λ _ w, is_dict w = true) mm
            | _ => False
            end) fm
      | Some _ => False
      end
  | _ => False
  end.

(** the document [d] with the fields [w] for the window of
    [(format, market)] and everything else as it is *)
Definition with_window (d : json) (format market : string) (w : gmap string json) : json :=
  JDict (<["last_success" :=
            JDict (<[format :=
                      JDict (<[market := JDict w]> (markets d format))]>
                     (formats d))]>
           (entries (Some d))).

Definition stamp_key (yesterday : bool) : string :=
  if yesterday then "yesterday_last_updated" else "last_updated".

Definition prefix_key (yesterday : bool) : string :=
  if yesterday then "yesterday_prefix" else "prefix".

(** the document that [update] writes *)
Definition stamped (d : json) (market format prefix : string) (yesterday : bool)
    (utcnow : datetime) : json :=
  with_window d format market
    (<[prefix_key yesterday := JStr prefix]>
       (<[stamp_key yesterday := JStr (datetime_str utcnow)]>
          (window d format market))).

(** the document that [clear_yesterday] writes *)
Definition cleared (d : json) (market format : string) : json :=
  with_window d format market
    (delete "yesterday_prefix"
       (delete "yesterday_last_updated" (window d format market))).

(** [p] leaves [q]: the two paths agree up to a place where both go on, with
    different keys *)
Fixpoint leaves (p q : list string) : bool :=
  match p, q with
  | a :: p', b :: q' => if bool_decide (a = b) then leaves p' q' else true
  | _, _ => false
  end.

(** the path of a field of the window of [(format, market)] *)
Definition field_path (format market field : string) : list string :=
  ["last_success"; format; market; field].

End MetadataSpec.

(** ** Vocabulary of the further properties *)

Module Keys.

(** a name without [/] *)
Definition no_slash (s : string) : bool :=
  forallb (λ c, negb (bool_decide (c = "/"%char))) (Str.to_list s).

Definition no_slash_opt (v : option string) : bool :=
  match v with
  | Some s => no_slash s
  | None => true
  end.

(** a lower-case hexadecimal digit *)
Definition is_hex (c : ascii) : bool :=
  bool_decide (c ∈ Str.to_list "0123456789abcdef").

Definition all_chars (P : ascii → bool) (s : string) : Prop :=
  Forall (λ c, P c = true) (Str.to_list s).

(** the document that [update_custom_metadata] writes *)
Definition customized (d : json) (market format prefix : string) (custom_values : json)
    (yesterday : bool) (utcnow : Py.datetime) : json :=
  let d' := MetadataSpec.stamped d market format prefix yesterday utcnow in
  if Py.truthy custom_values
  then MetadataSpec.with_window d' format market
         (<["custom_values" := custom_values]> (MetadataSpec.window d' format market))
  else d'.

(** the arguments of [get_prefix], apart from the format, without [/] *)
Definition slash_free_partition (data_source data_source_type location : string)
    (year month day hour minute second : option string) : bool :=
  no_slash data_source && no_slash data_source_type && no_slash location
  && no_slash_opt year && no_slash_opt month && no_slash_opt day
  && no_slash_opt hour && no_slash_opt minute && no_slash_opt second.

End Keys.

(** ** Sample buckets *)

Module Sample.
Import Py.

Definition window_us : json :=
  JDict {[ "last_updated" := JStr "2018-01-31 10:00:00";
           "prefix" := JStr "gfk/matched_report/_/2018/01/30/_/_/_/csv/";
           "custom_values" := JDict {[ "rows" := JInt 42 ]} ]}.

Definition window_de : json :=
  JDict {[ "last_updated" := JStr "2018-01-31 11:00:00.000250";
           "prefix" := JStr "gfk/matched_report/DE/2018/01/30/_/_/_/csv/";
           "yesterday_last_updated" := JStr "2018-01-30 11:00:00";
           "yesterday_prefix" := JStr "gfk/matched_report/DE/2018/01/29/_/_/_/csv/" ]}.

Definition document : json :=
  JDict {[ "last_success" :=
             JDict {[ "csv" := JDict {[ "us" := window_us; "de" := window_de ]};
                      "parquet" := JDict {[ "us" := JDict ∅ ]} ]} ]}.

Definition blob : string := "gfk/matched_report/metadata.json".

(** a bucket with the document above *)
Definition bucket : gmap string string := {[ blob := Json.dumps document ]}.

(** a bucket whose document is the empty object *)
Definition empty_document_bucket : gmap string string := {[ blob := "{}" ]}.

(** a bucket whose blob is not JSON *)
Definition broken_bucket : gmap string string := {[ blob := "{oops" ]}.

(** a bucket with the document above and the blob of another data source *)
Definition two_sources : gmap string string :=
  <["gfk/price_parity/metadata.json" := "{}"]> bucket.

(** a bucket whose document has a list for [last_success] *)
Definition odd_document : json := JDict {[ "last_success" := JList [] ]}.
Definition odd_bucket : gmap string string := {[ blob := Json.dumps odd_document ]}.

Definition called_at : datetime := Datetime 2018 2 1 9 30 0 0.
Definition utcnow : datetime := Datetime 2018 2 1 9 30 0 1250.
Definition later : datetime := Datetime 2018 2 1 9 45 10 0.

End Sample.

(** * Properties *)

(** ** Strings *)

Section StrFacts.
Implicit Types s t : string.

Lemma str_app_cons c s t : String c s +:+ t = String c (s +:+ t).
Proof. reflexivity. Qed.

Lemma str_length_app s t :
  String.length (s +:+ t) = String.length s + String.length t.
Proof.
  induction s as [|c s IH]; [done|].
  rewrite str_app_cons. simpl. by rewrite IH.
Qed.


Lemma str_app_empty_r s : s +:+ EmptyString = s.
Proof. induction s as [|c s IH]; [done|]. by rewrite str_app_cons, IH. Qed.

Lemma str_length_replicate n c : String.length (Str.replicate n c) = n.
Proof. induction n as [|n IH]; simpl; [done|]. by rewrite IH. Qed.

Lemma str_length_of_list (l : list ascii) : String.length (Str.of_list l) = length l.
Proof. induction l as [|c l IH]; simpl; [done|]. by rewrite IH. Qed.


Lemma replace_of_list a b (l : list ascii) :
  Str.replace a b (Str.of_list l)
  = Str.of_list ((λ c, if bool_decide (c = a) then b else c) <$> l).
Proof. induction l as [|c l IH]; simpl; [done|]. by rewrite IH. Qed.

Lemma str_length_replace a b s : String.length (Str.replace a b s) = String.length s.
Proof. induction s as [|c s IH]; simpl; [done|]. by rewrite IH. Qed.

Lemma str_prefix_app s t : String.prefix s (s +:+ t) = true.
Proof.
  induction s as [|c s IH]; [by destruct t|].
  rewrite str_app_cons. simpl. by destruct (ascii_dec c c).
Qed.

Lemma startswith_app s t : Str.startswith (s +:+ t) s = true.
Proof. apply str_prefix_app. Qed.

End StrFacts.

(** ** Bucket names *)

Example sha1_empty :
  SHA1.hexdigest (SHA1.encode EmptyString) = "da39a3ee5e6b4b0d3255bfef95601890afd80709".
Proof. vm_compute. reflexivity. Qed.

Example sha1_two_blocks :
  SHA1.hexdigest
    (SHA1.encode "abcdbcdecdefdefgefghfghighijhijkijkljklmklmnlmnomnopnopq")
  = "84983e441c3bd26ebaae4aa1f95129e5e54670f1".
Proof. vm_compute. reflexivity. Qed.

(** the values expected by [tests/test_naming_utils.py] *)
Example test_get_ingestion_bucket_name :
  Naming.get_ingestion_bucket_name "test" "test" "test" = "0071877d20.dataeng.com".
Proof. vm_compute. reflexivity. Qed.

Example test_get_modeling_bucket_name :
  Naming.get_modeling_bucket_name "test" "test" "test" "test_url" = "759ed6f3d5.dataeng.com".
Proof. vm_compute. reflexivity. Qed.

Example test_get_dataflow_bucket_name :
  Naming.get_dataflow_bucket_name "test" = "dataflow-a94a8fe5cc.dataeng.com".
Proof. vm_compute. reflexivity. Qed.

Example test_get_dags_location :
  Naming.get_dags_location "composer-1850.dataeng.com" = "gs://composer-1850.dataeng.com/dags".
Proof. vm_compute. reflexivity. Qed.

Example test_get_success_file_location :
  Naming.get_success_file_location "test-data-source" "test-data-source-type"
  = "test-data-source/test-data-source-type/_SUCCESS".
Proof. vm_compute. reflexivity. Qed.

(** C3, as the code has it.  The ingestion and modeling bucket names are
    functions of their arguments, and [org_name], [group_name] and [repo_name]
    are lower-cased before hashing: two calls with the same [project_id] whose
    other fields are equal after lower-casing return the same name.  The
    [project_id] is hashed as it is given. *)
Theorem bucket_names_ignore_case_of_names
    (project_id org_name group_name repo_name org_name' group_name' repo_name' : string) :
  Str.lower org_name = Str.lower org_name' →
  Str.lower group_name = Str.lower group_name' →
  Str.lower repo_name = Str.lower repo_name' →
  Naming.get_ingestion_bucket_name project_id org_name group_name
  = Naming.get_ingestion_bucket_name project_id org_name' group_name'
  ∧ Naming.get_modeling_bucket_name project_id org_name group_name repo_name
    = Naming.get_modeling_bucket_name project_id org_name' group_name' repo_name'.
Proof.
  intros Horg Hgroup Hrepo.
  unfold Naming.get_ingestion_bucket_name, Naming.get_modeling_bucket_name.
  by rewrite Horg, Hgroup, Hrepo.
Qed.

Lemma bucket_names_ignore_case_of_names_witness :
  Naming.get_ingestion_bucket_name "test" "TEST" "Test"
  = Naming.get_ingestion_bucket_name "test" "test" "test"
  ∧ Naming.get_modeling_bucket_name "test" "TEST" "Test" "Test_URL"
    = Naming.get_modeling_bucket_name "test" "test" "test" "test_url".
Proof.
  apply (bucket_names_ignore_case_of_names
           "test" "TEST" "Test" "Test_URL" "test" "test" "test_url");
    reflexivity.
Defined.

(** C3, as stated, fails on the [project_id]: ["Test"] and ["test"] are equal
    after lower-casing, and the two identity tuples get different names. *)
Lemma project_id_case_changes_bucket_name :
  Str.lower "Test" = Str.lower "test"
  ∧ Naming.get_ingestion_bucket_name "Test" "test" "test"
    ≠ Naming.get_ingestion_bucket_name "test" "test" "test"
  ∧ Naming.get_modeling_bucket_name "Test" "test" "test" "test_url"
    ≠ Naming.get_modeling_bucket_name "test" "test" "test" "test_url".
Proof.
  split; [reflexivity|].
  split; intros H; vm_compute in H; discriminate H.
Qed.

(** C7.  For every [project_id] the DAGs, DataFlow and test bucket names
    start with [composer-], [dataflow-] and [test-], are followed by the same
    hash of [project_id] and the domain, and are pairwise distinct. *)
Theorem prefixed_bucket_names_distinct (project_id : string) :
  let dags := Naming.get_dags_bucket_name project_id in
  let dataflow := Naming.get_dataflow_bucket_name project_id in
  let test := Naming.get_test_bucket_name project_id in
  let rest := Naming.hashed project_id +:+ ".dataeng.com" in
  Str.startswith dags "composer-" = true
  ∧ Str.startswith dataflow "dataflow-" = true
  ∧ Str.startswith test "test-" = true
  ∧ dags = "composer-" +:+ rest
  ∧ dataflow = "dataflow-" +:+ rest
  ∧ test = "test-" +:+ rest
  ∧ dags ≠ dataflow ∧ dags ≠ test ∧ dataflow ≠ test.
Proof.
  unfold Naming.get_dags_bucket_name, Naming.get_dataflow_bucket_name,
    Naming.get_test_bucket_name.
  generalize (Naming.hashed project_id). intros h. cbv zeta.
  repeat split; try reflexivity;
    try (intros H; vm_compute in H; discriminate H).
  - apply (startswith_app "composer-").
  - apply (startswith_app "dataflow-").
  - apply (startswith_app "test-").
Qed.

(** ** Partition prefixes *)

Lemma zfill_zero_padded (v : string) (width : nat) :
  Str.zfill v width = NamingSpec.zero_padded width v.
Proof.
  unfold Str.zfill, NamingSpec.zero_padded.
  destruct (Nat.leb_spec width (String.length v)) as [Hle|Hlt]; [|done].
  replace (width - String.length v) with 0 by lia.
  destruct v as [|c rest]; [done|]. by destruct (Str.is_sign c).
Qed.

Lemma length_zero_padded (width : nat) (v : string) :
  String.length (NamingSpec.zero_padded width v) = max width (String.length v).
Proof.
  unfold NamingSpec.zero_padded. destruct v as [|c rest].
  - rewrite str_length_replicate. simpl. lia.
  - destruct (Str.is_sign c); simpl;
      rewrite str_length_app, str_length_replicate; simpl; lia.
Qed.

Lemma format_zfill_with_len (v : option string) (width : nat) :
  Str.format_field (Naming._zfill_with_len v width) = NamingSpec.shown width v.
Proof.
  destruct v as [v|]; [|done]. unfold Naming._zfill_with_len, NamingSpec.shown,
    NamingSpec.time_field.
  case_bool_decide; simpl; [by subst|]. apply zfill_zero_padded.
Qed.

Lemma get_prefix_shown (data_source data_source_type format location : string)
    (year month day hour minute second : option string) :
  Naming.get_prefix data_source data_source_type format location
    year month day hour minute second
  = data_source +:+ "/" +:+ data_source_type +:+ "/" +:+ location +:+ "/"
    +:+ NamingSpec.shown 4 year +:+ "/" +:+ NamingSpec.shown 2 month +:+ "/"
    +:+ NamingSpec.shown 2 day +:+ "/" +:+ NamingSpec.shown 2 hour +:+ "/"
    +:+ NamingSpec.shown 2 minute +:+ "/" +:+ NamingSpec.shown 2 second +:+ "/"
    +:+ format +:+ "/".
Proof. unfold Naming.get_prefix. by rewrite !format_zfill_with_len. Qed.

(** C6.  [get_prefix] writes each time component that is not the placeholder
    zero-padded to its width, 4 for the year and 2 for the month, day, hour,
    minute and second, and writes the placeholder ["_"] as it is.  A padded
    text has the width or its own length when that is larger; the zeros come
    first when the text has no sign.  No component is validated: a month 13
    and a day 99 are written as given.  The prefix of [test_naming_utils.py]
    is as expected. *)
Theorem get_prefix_zero_pads :
  (∀ data_source data_source_type format location year month day hour minute second,
     Naming.get_prefix data_source data_source_type format location
       (Some year) (Some month) (Some day) (Some hour) (Some minute) (Some second)
     = data_source +:+ "/" +:+ data_source_type +:+ "/" +:+ location +:+ "/"
       +:+ NamingSpec.time_field 4 year +:+ "/" +:+ NamingSpec.time_field 2 month +:+ "/"
       +:+ NamingSpec.time_field 2 day +:+ "/" +:+ NamingSpec.time_field 2 hour +:+ "/"
       +:+ NamingSpec.time_field 2 minute +:+ "/" +:+ NamingSpec.time_field 2 second
       +:+ "/" +:+ format +:+ "/")
  ∧ (∀ width, NamingSpec.time_field width "_" = "_")
  ∧ (∀ width v, v ≠ "_" →
       NamingSpec.time_field width v = NamingSpec.zero_padded width v
       ∧ String.length (NamingSpec.time_field width v) = max width (String.length v))
  ∧ (∀ width v, NamingSpec.unsigned v →
       NamingSpec.zero_padded width v
       = Str.replicate (width - String.length v) "0" +:+ v)
  ∧ Naming.get_prefix "gfk" "matched_report" "csv" "_"
      (Some "2018") (Some "01") (Some "31") (Some "_") (Some "_") (Some "_")
    = "gfk/matched_report/_/2018/01/31/_/_/_/csv/"
  ∧ Naming.get_prefix "gfk" "matched_report" "csv" "_"
      (Some "18") (Some "13") (Some "99") (Some "7") (Some "_") (Some "5")
    = "gfk/matched_report/_/0018/13/99/07/_/05/csv/".
Proof.
  split; [intros; apply get_prefix_shown|].
  split; [done|].
  split.
  { intros width v Hv. unfold NamingSpec.time_field.
    rewrite bool_decide_false by done. split; [done|]. apply length_zero_padded. }
  split; [|by split; vm_compute].
  intros width [|c rest] Hv; unfold NamingSpec.zero_padded.
  - by rewrite str_app_empty_r.
  - simpl in Hv. by rewrite Hv.
Qed.

Lemma get_prefix_zero_pads_witness :
  NamingSpec.time_field 2 "7" = NamingSpec.zero_padded 2 "7"
  ∧ String.length (NamingSpec.time_field 2 "7") = 2
  ∧ NamingSpec.zero_padded 4 "18" = "0018".
Proof.
  destruct get_prefix_zero_pads as (_ & _ & Hfield & Hzeros & _).
  destruct (Hfield 2 "7") as [Hpad Hlen]; [discriminate|].
  split; [exact Hpad|]. split; [exact Hlen|].
  apply (Hzeros 4 "18"). reflexivity.
Defined.

(** C10.  A time component that is [None] does not make [get_prefix] fail:
    [_zfill_with_len] returns [None] as it returns the placeholder, without
    padding, and the prefix has the text [None] at that place. *)
Theorem get_prefix_None_component
    (data_source data_source_type format location : string)
    (year month day hour minute second : option string) :
  (∀ len, Naming._zfill_with_len None len = None)
  ∧ (∀ len, Naming._zfill_with_len (Some "_") len = Some "_")
  ∧ (∀ width, NamingSpec.shown width None = "None")
  ∧ Naming.get_prefix data_source data_source_type format location
      year month day hour minute second
    = data_source +:+ "/" +:+ data_source_type +:+ "/" +:+ location +:+ "/"
      +:+ NamingSpec.shown 4 year +:+ "/" +:+ NamingSpec.shown 2 month +:+ "/"
      +:+ NamingSpec.shown 2 day +:+ "/" +:+ NamingSpec.shown 2 hour +:+ "/"
      +:+ NamingSpec.shown 2 minute +:+ "/" +:+ NamingSpec.shown 2 second +:+ "/"
      +:+ format +:+ "/"
  ∧ Naming.get_prefix "gfk" "matched_report" "csv" "_"
      (Some "2018") None (Some "1") None (Some "_") None
    = "gfk/matched_report/_/2018/None/01/None/_/None/csv/"
  ∧ Naming.get_prefix "gfk" "matched_report" "csv" "_" None None None None None None
    = "gfk/matched_report/_/None/None/None/None/None/None/csv/".
Proof.
  repeat split; try done. apply get_prefix_shown.
Qed.

(** ** Staging dataset identifiers *)

Lemma sub_nonword_underscored (s : string) :
  Str.sub_nonword "_" s = NamingSpec.underscored s.
Proof.
  induction s as [|c s IH]; simpl; [done|]. rewrite IH. f_equal.
  unfold Str.is_word. destruct (Str.is_alnum c); simpl; [done|].
  by case_bool_decide.
Qed.

Lemma lstrip_spec (c : ascii) (s : string) :
  (∃ n, s = Str.replicate n c +:+ Str.lstrip c s)
  ∧ ∀ s', Str.lstrip c s ≠ String c s'.
Proof.
  induction s as [|x s [[n IHn] IH]]; simpl.
  - split; [by exists 0|done].
  - case_bool_decide as Hx.
    + subst x. split; [|done]. exists (S n). simpl. rewrite str_app_cons. by f_equal.
    + split; [by exists 0|]. intros s' [=]. done.
Qed.

Lemma rstrip_spec (c : ascii) (s : string) :
  (∃ m, s = Str.rstrip c s +:+ Str.replicate m c)
  ∧ (∀ s', Str.rstrip c s ≠ s' +:+ String c EmptyString)
  ∧ (∀ x s', Str.rstrip c s = String x s' → ∃ s'', s = String x s'').
Proof.
  induction s as [|x s ([m IHm] & IHend & IHhd)]; simpl.
  - split; [by exists 0|]. split; [by intros [|??]|done].
  - destruct (Str.rstrip c s) as [|y t] eqn:Hr.
    + case_bool_decide as Hx.
      * subst x. split; [exists (S m); by rewrite IHm at 1|].
        split; [by intros [|??]|done].
      * split; [exists m; rewrite str_app_cons; by f_equal|].
        split; [|intros ?? [= <- <-]; eauto].
        intros [|z [|??]] [=]; done.
    + split; [exists m; rewrite str_app_cons; by f_equal|].
      split; [|intros ?? [= <- <-]; eauto].
      intros [|z s'] [=]; subst. by eapply IHend.
Qed.

Lemma strip_spec (c : ascii) (s : string) :
  (∃ n m, s = Str.replicate n c +:+ Str.strip c s +:+ Str.replicate m c)
  ∧ (∀ s', Str.strip c s ≠ String c s')
  ∧ (∀ s', Str.strip c s ≠ s' +:+ String c EmptyString).
Proof.
  unfold Str.strip.
  destruct (lstrip_spec c s) as [[n Hn] Hhd].
  destruct (rstrip_spec c (Str.lstrip c s)) as ([m Hm] & Hend & Hfirst).
  split; [exists n, m; by rewrite <-Hm|].
  split; [|done].
  intros s' Hs. destruct (Hfirst _ _ Hs) as [s'' Hs'']. by eapply Hhd.
Qed.

Lemma length_hex (k : nat) (n : N) : length (UUID.hex k n) = k.
Proof.
  revert n. induction k as [|k IH]; intros n; simpl; [done|].
  rewrite length_app, IH. simpl. lia.
Qed.


Lemma hex_digit_not_dash (n : N) : UUID.hex_digit n ≠ "-"%char.
Proof.
  unfold UUID.hex_digit. generalize (N.to_nat n). intros m.
  do 16 (destruct m as [|m]; [by vm_compute|]). simpl. by destruct m.
Qed.

Lemma hex_no_dash (k : nat) (n : N) : Forall (λ c, c ≠ "-"%char) (UUID.hex k n).
Proof.
  revert n. induction k as [|k IH]; intros n; simpl; [constructor|].
  apply Forall_app. split; [apply IH|].
  constructor; [apply hex_digit_not_dash|constructor].
Qed.




Lemma length_grouped (sep : ascii) (h : list ascii) :
  length h = 32 → length (UUID.grouped sep h) = 36.
Proof.
  intros Hl. unfold UUID.grouped.
  repeat (rewrite ?length_app, ?length_take, ?length_drop; cbn [length]).
  rewrite Hl. reflexivity.
Qed.

Lemma fmap_grouped (g : ascii → ascii) (sep : ascii) (h : list ascii) :
  g <$> UUID.grouped sep h = UUID.grouped (g sep) (g <$> h).
Proof.
  unfold UUID.grouped.
  repeat first
    [rewrite fmap_app | rewrite fmap_cons | rewrite fmap_take | rewrite fmap_drop].
  reflexivity.
Qed.

(** the random part of a staging dataset identifier *)
Lemma random_string_grouped (uuid4 : N) :
  Str.replace "-" "_" (UUID.to_str uuid4)
  = Str.of_list (UUID.grouped "_" (UUID.hex 32 uuid4)).
Proof.
  unfold UUID.to_str. rewrite replace_of_list, fmap_grouped. f_equal. f_equal.
  induction (hex_no_dash 32 uuid4) as [|c l Hc _ IH]; [done|].
  rewrite fmap_cons, IH. by rewrite bool_decide_false.
Qed.

Lemma random_string_length (uuid4 : N) :
  String.length (Str.replace "-" "_" (UUID.to_str uuid4)) = 36.
Proof.
  rewrite random_string_grouped, str_length_of_list.
  apply length_grouped, length_hex.
Qed.


Example test_get_staging_dataset_id (uuid4 : N) :
  let staging_bucket_name :=
    Naming.get_staging_dataset_id "test-data-source" "(test-data-source-type)" uuid4 in
  let expected := "staging_test_data_source_test_data_source_type" in
  String.length staging_bucket_name = String.length expected + 37
  ∧ Str.startswith staging_bucket_name expected = true.
Proof.
  cbv zeta. unfold Naming.get_staging_dataset_id.
  generalize (random_string_length uuid4).
  generalize (Str.replace "-" "_" (UUID.to_str uuid4)). intros r Hr.
  split.
  - rewrite !str_length_app, Hr. reflexivity.
  - apply (startswith_app "staging_test_data_source_test_data_source_type"
             ("_" +:+ r)).
Qed.



(** ** The metadata document *)

Ltac crunch :=
  repeat first
    [ progress simpl
    | rewrite lookup_insert_eq
    | rewrite lookup_empty
    | rewrite insert_insert_eq
    | match goal with H : _ !! _ = _ |- _ => rewrite H end
    | rewrite bool_decide_true by eauto
    | rewrite bool_decide_false by (by intros [? ?]) ].

Section DocumentFacts.
Import Py Metadata MetadataSpec.
Implicit Types (d o : json) (w : gmap string json) (p q : list string).

Lemma assign_with_window d format market w key v :
  assign (with_window d format market w) ["last_success"; format; market] key v
  = Ok (with_window d format market (<[key := v]> w)).
Proof. unfold assign, with_window. by crunch. Qed.

Lemma discard_with_window d format market w key :
  discard (with_window d format market w) ["last_success"; format; market] key
  = Ok (with_window d format market (delete key w)).
Proof.
  unfold discard, del, with_window.
  destruct (w !! key) as [v|] eqn:Hkey; crunch; [done|].
  by rewrite (delete_id w key).
Qed.

Lemma ensure_window {A} d format market (k : json → result A) :
  addressable d format market = true →
  (metadata ← ensure_dict (if is_None d then dict else d) [] "last_success";
   metadata ← ensure_dict metadata ["last_success"] format;
   metadata ← ensure_dict metadata ["last_success"; format] market;
   k metadata)
  = k (with_window d format market (window d format market)).
Proof.
  unfold addressable, with_window, window, markets, formats, ensure_dict, assign, dict.
  intros Hd. destruct d as [| | | | | |top]; try done.
  - by crunch.
  - simpl in Hd.
    destruct (top !! "last_success") as [[| | | | | |fm]|] eqn:Hfm; try done;
      [|by crunch].
    simpl in Hd.
    destruct (fm !! format) as [[| | | | | |mm]|] eqn:Hmm; try done;
      [|by crunch].
    simpl in Hd.
    destruct (mm !! market) as [[| | | | | |w]|] eqn:Hw; try done;
      [|by crunch].
    crunch. by rewrite (insert_id mm), (insert_id fm), (insert_id top).
Qed.

Lemma stamp_window_stamped d market format prefix yesterday utcnow :
  addressable d format market = true →
  stamp_window d market format prefix yesterday utcnow
  = Ok (stamped d market format prefix yesterday utcnow).
Proof.
  intros Hd. unfold stamp_window, stamped. rewrite ensure_window by done.
  destruct yesterday; simpl;
    rewrite assign_with_window; simpl; by rewrite assign_with_window.
Qed.

Lemma clear_window_cleared d market format :
  addressable d format market = true → is_None d = false →
  clear_window d market format = Ok (cleared d market format).
Proof.
  intros Hd Hnone. unfold clear_window, cleared.
  pose proof (ensure_window d format market
    (λ metadata,
       metadata ← discard metadata ["last_success"; format; market]
                    "yesterday_last_updated";
       discard metadata ["last_success"; format; market] "yesterday_prefix") Hd)
    as Hensure.
  rewrite Hnone in Hensure. rewrite Hensure.
  rewrite discard_with_window. simpl. by rewrite discard_with_window.
Qed.

(** every Metadata Document of the data model can be addressed at every
    [(format, market)] *)
Lemma document_addressable d format market :
  document d → addressable d format market = true.
Proof.
  unfold document, addressable. destruct d as [| | | | | |top]; try done.
  simpl. destruct (top !! "last_success") as [[| | | | | |fm]|]; try done.
  intros Hfm. simpl.
  destruct (fm !! format) as [f|] eqn:Hf; [|done].
  apply Hfm in Hf. destruct f as [| | | | | |mm]; try done. simpl.
  destruct (mm !! market) as [w|] eqn:Hw; [|done].
  apply Hf in Hw. simpl. by rewrite Hw.
Qed.

(** on any other document the lines of [update_metadata] raise [TypeError] *)
Lemma stamp_window_raises d market format prefix yesterday utcnow :
  addressable d format market = false →
  stamp_window d market format prefix yesterday utcnow = Raise TypeError.
Proof.
  unfold addressable, stamp_window, ensure_dict, assign, dict.
  intros Hd. destruct d as [| | | | | |top]; simpl in Hd |- *; try done.
  - by case_bool_decide.
  - by destruct (existsb _ l).
  - destruct (top !! "last_success") as [fm|] eqn:Hfm; [|by crunch; destruct yesterday].
    crunch. simpl in Hd.
    destruct fm as [| | | | | |fm]; simpl in Hd |- *; try done.
    + by case_bool_decide; crunch; destruct yesterday.
    + by destruct (existsb _ l); crunch; destruct yesterday.
    + destruct (fm !! format) as [mm|] eqn:Hmm; [|by crunch; destruct yesterday].
      crunch. simpl in Hd.
      destruct mm as [| | | | | |mm]; simpl in Hd |- *; try done.
      * by case_bool_decide; crunch; destruct yesterday.
      * by destruct (existsb _ l); crunch; destruct yesterday.
      * destruct (mm !! market) as [w|] eqn:Hw; [|by crunch; destruct yesterday].
        crunch. simpl in Hd.
        destruct w; simpl in Hd; try done; by destruct yesterday; crunch.
Qed.

Lemma dig_insert key v (m : gmap string json) a p :
  dig (JDict (<[key := v]> m)) (a :: p)
  = if bool_decide (a = key) then dig v p else dig (JDict m) (a :: p).
Proof.
  simpl. case_bool_decide as Ha.
  - subst a. by rewrite lookup_insert_eq.
  - by rewrite lookup_insert_ne.
Qed.

Lemma dig_app o p q : dig o (p ++ q) = dig o p ≫= λ v, dig v q.
Proof.
  revert o. induction p as [|a p IH]; intros o; [done|].
  simpl. destruct o as [| | | | | |m]; try done.
  destruct (m !! a) as [v|]; simpl; [apply IH|done].
Qed.

Lemma dig_entries (o : option json) a p :
  dig (JDict (entries o)) (a :: p) = o ≫= λ v, dig v (a :: p).
Proof.
  destruct o as [[| | | | | |m]|]; simpl; by rewrite ?lookup_empty.
Qed.

Lemma dig_with_window d format market w :
  dig (with_window d format market w) ["last_success"; format; market]
  = Some (JDict w).
Proof. unfold with_window. by crunch. Qed.

Lemma window_with_window d format market w :
  window (with_window d format market w) format market = w.
Proof. unfold window. by rewrite dig_with_window. Qed.

Lemma dig_field_with_window d format market w field :
  dig (with_window d format market w) (field_path format market field)
  = w !! field ≫= λ v, Some v.
Proof.
  change (field_path format market field)
    with (["last_success"; format; market] ++ [field]).
  by rewrite dig_app, dig_with_window.
Qed.

Lemma dig_below d p a q :
  dig (JDict (entries (dig d p))) (a :: q) = dig d (p ++ a :: q).
Proof. by rewrite dig_entries, dig_app. Qed.

(** a value away from the fields that are written is found as before *)
Lemma dig_with_window_frame d format market w field1 field2 p :
  (∀ k, k ≠ field1 → k ≠ field2 → w !! k = window d format market !! k) →
  leaves p (field_path format market field1) = true →
  leaves p (field_path format market field2) = true →
  dig (with_window d format market w) p = dig d p.
Proof.
  intros Hw H1 H2. unfold with_window.
  destruct p as [|a p]; [done|]. rewrite dig_insert.
  simpl in H1, H2. case_bool_decide as Ha; [subst a|by rewrite dig_entries].
  destruct p as [|b p]; [done|]. rewrite dig_insert.
  simpl in H1, H2. case_bool_decide as Hb; [subst b|apply dig_below].
  destruct p as [|c p]; [done|]. rewrite dig_insert.
  simpl in H1, H2. case_bool_decide as Hc; [subst c|apply dig_below].
  destruct p as [|e p]; [done|].
  simpl in H1, H2.
  case_bool_decide as He1; [by destruct p|].
  case_bool_decide as He2; [by destruct p|].
  transitivity (dig (JDict (window d format market)) (e :: p)).
  { simpl. by rewrite Hw. }
  apply dig_below.
Qed.

Lemma addressable_with_window d format market w :
  addressable (with_window d format market w) format market = true.
Proof. unfold addressable, with_window. by crunch. Qed.

Lemma with_window_twice d format market w w' :
  with_window (with_window d format market w) format market w'
  = with_window d format market w'.
Proof.
  unfold with_window at 1. unfold markets, formats.
  assert (dig (with_window d format market w) ["last_success"; format]
          = Some (JDict (<[market := JDict w]> (markets d format)))) as ->
    by (unfold with_window; by crunch).
  assert (dig (with_window d format market w) ["last_success"]
          = Some (JDict (<[format := JDict (<[market := JDict w]> (markets d format))]>
                           (formats d)))) as ->
    by (unfold with_window; by crunch).
  unfold with_window. simpl. by rewrite !insert_insert_eq.
Qed.

Lemma with_window_id d format market w :
  is_dict d = true →
  dig d ["last_success"; format; market] = Some (JDict w) →
  with_window d format market w = d.
Proof.
  intros Hd Hw. unfold with_window, markets, formats.
  destruct d as [| | | | | |top]; try done. simpl in *.
  destruct (top !! "last_success") as [[| | | | | |fm]|] eqn:Hfm; try done.
  simpl in *.
  destruct (fm !! format) as [[| | | | | |mm]|] eqn:Hmm; try done.
  simpl in *.
  destruct (mm !! market) as [x|] eqn:Hx; try done. simpl in Hw.
  injection Hw as ->.
  by rewrite (insert_id mm), (insert_id fm), (insert_id top).
Qed.

End DocumentFacts.

(** ** Reading and writing the metadata blob *)

Section MetadataProperties.
Import Py Metadata MetadataSpec.
Variable json_dumps : json → string.
Variable json_loads : string → result json.
Implicit Types (bucket : gmap string string) (d : json).

Lemma get_metadata_after_upload bucket data_source data_source_type d :
  json_loads (json_dumps d) = Ok d →
  get_metadata json_loads
    (upload_from_string bucket (metadata_blob data_source data_source_type)
       (json_dumps d))
    data_source data_source_type
  = Ok d.
Proof.
  intros Hd. unfold get_metadata, blob_exists, download_as_string, upload_from_string.
  rewrite lookup_insert_eq. rewrite bool_decide_true by eauto. simpl.
  by rewrite Hd.
Qed.

Lemma update_metadata_writes bucket data_source data_source_type
    market format prefix yesterday utcnow d :
  get_metadata json_loads bucket data_source data_source_type = Ok d →
  addressable d format market = true →
  update_metadata json_dumps json_loads bucket data_source data_source_type
    market format prefix yesterday utcnow
  = Ok (<[metadata_blob data_source data_source_type :=
            json_dumps (stamped d market format prefix yesterday utcnow)]> bucket).
Proof.
  intros Hget Hd. unfold update_metadata. rewrite Hget. simpl.
  by rewrite stamp_window_stamped.
Qed.

Lemma get_metadata_lookup bucket data_source data_source_type :
  get_metadata json_loads bucket data_source data_source_type
  = match bucket !! metadata_blob data_source data_source_type with
    | Some body => json_loads body
    | None => Ok JNull
    end.
Proof.
  unfold get_metadata, blob_exists, download_as_string.
  destruct (bucket !! metadata_blob data_source data_source_type) as [body|].
  - rewrite bool_decide_true by eauto. simpl. by destruct (json_loads body).
  - by rewrite bool_decide_false by (by intros [? ?]).
Qed.

(** C4.  [get_metadata] returns [None], and raises nothing, when the blob
    does not exist; it returns the document that [json.loads] reads when the
    blob exists and is JSON; and it raises exactly when the blob exists and
    [json.loads] raises on its body, with the exception of [json.loads]. *)
Theorem get_metadata_outcomes bucket data_source data_source_type :
  let blob := metadata_blob data_source data_source_type in
  (bucket !! blob = None →
     get_metadata json_loads bucket data_source data_source_type = Ok JNull)
  ∧ (∀ body d, bucket !! blob = Some body → json_loads body = Ok d →
       get_metadata json_loads bucket data_source data_source_type = Ok d)
  ∧ (∀ e, get_metadata json_loads bucket data_source data_source_type = Raise e
          ↔ ∃ body, bucket !! blob = Some body ∧ json_loads body = Raise e)
  ∧ (raises (get_metadata json_loads bucket data_source data_source_type)
     ↔ ∃ body, bucket !! blob = Some body ∧ raises (json_loads body)).
Proof.
  cbv zeta. unfold raises. rewrite get_metadata_lookup.
  destruct (bucket !! metadata_blob data_source data_source_type) as [body|].
  - split; [done|]. split; [by intros ?? [= <-]|]. split.
    + intros e. split; [eauto|]. by intros (? & [= <-] & ?).
    + split; [intros [e He]; eauto|]. by intros (? & [= <-] & ?).
  - split; [done|]. split; [done|]. split.
    + intros e. split; [done|]. by intros (? & ? & ?).
    + split; [by intros [? ?]|]. by intros (? & ? & ?).
Qed.

Lemma stamp_key_ne_prefix_key yesterday : stamp_key yesterday ≠ prefix_key yesterday.
Proof. by destruct yesterday. Qed.

Lemma stamped_absent market format prefix yesterday utcnow :
  stamped JNull market format prefix yesterday utcnow
  = stamped dict market format prefix yesterday utcnow.
Proof. reflexivity. Qed.

(** C1.  Whatever the document before, absent or present with the shape of
    the data model on the way to the window, [update_metadata] writes one
    blob, the whole document, over the one before.  In the document written
    the window of [(format, market)] exists, its [prefix] and [last_updated]
    fields ([yesterday_prefix] and [yesterday_last_updated] when [yesterday]
    is set) hold the prefix of the call and the time read in the call, and
    its other fields are as before; an absent document counts as the
    empty object.  When [json.loads] reads back what [json.dumps] wrote,
    [get_metadata] returns that document right after, and the time in it is
    not before the call, the clock being read after the call starts. *)
Theorem update_then_get bucket data_source data_source_type market format prefix
    yesterday called_at utcnow d :
  get_metadata json_loads bucket data_source data_source_type = Ok d →
  addressable d format market = true →
  datetime_le called_at utcnow →
  let d' := stamped d market format prefix yesterday utcnow in
  let bucket' := <[metadata_blob data_source data_source_type := json_dumps d']> bucket in
  json_loads (json_dumps d') = Ok d' →
  update_metadata json_dumps json_loads bucket data_source data_source_type
    market format prefix yesterday utcnow = Ok bucket'
  ∧ get_metadata json_loads bucket' data_source data_source_type = Ok d'
  ∧ (is_None d = true → d' = stamped dict market format prefix yesterday utcnow)
  ∧ ∃ w, dig d' ["last_success"; format; market] = Some (JDict w)
      ∧ w !! prefix_key yesterday = Some (JStr prefix)
      ∧ (∃ t, w !! stamp_key yesterday = Some (JStr (datetime_str t))
              ∧ datetime_le called_at t)
      ∧ ∀ field, field ≠ prefix_key yesterday → field ≠ stamp_key yesterday →
          w !! field = window d format market !! field.
Proof.
  intros Hget Hd Hclock d' bucket' Hrt.
  split; [by apply update_metadata_writes|].
  split; [by apply get_metadata_after_upload|].
  split; [by destruct d|].
  eexists. split; [apply dig_with_window|].
  split; [apply lookup_insert_eq|].
  split.
  - exists utcnow. split; [|done].
    rewrite lookup_insert_ne by (by destruct yesterday). apply lookup_insert_eq.
  - intros field H1 H2. by rewrite !lookup_insert_ne.
Qed.

(** C9.  When the window of [(format, market)] does not exist,
    [update_metadata] with [yesterday] set writes a document in which that
    window has the two fields [yesterday_last_updated] and [yesterday_prefix]
    and no other: [last_updated] and [prefix] are absent from it, and from
    what [get_metadata] returns next. *)
Theorem update_yesterday_fresh_window bucket data_source data_source_type market
    format prefix utcnow d :
  get_metadata json_loads bucket data_source data_source_type = Ok d →
  addressable d format market = true →
  dig d ["last_success"; format; market] = None →
  let d' := stamped d market format prefix true utcnow in
  json_loads (json_dumps d') = Ok d' →
  ∃ bucket',
    update_metadata json_dumps json_loads bucket data_source data_source_type
      market format prefix true utcnow = Ok bucket'
    ∧ get_metadata json_loads bucket' data_source data_source_type = Ok d'
    ∧ dig d' ["last_success"; format; market]
      = Some (JDict (<["yesterday_prefix" := JStr prefix]>
                       {["yesterday_last_updated" := JStr (datetime_str utcnow)]}))
    ∧ dig d' (field_path format market "yesterday_prefix") = Some (JStr prefix)
    ∧ dig d' (field_path format market "yesterday_last_updated")
      = Some (JStr (datetime_str utcnow))
    ∧ dig d' (field_path format market "last_updated") = None
    ∧ dig d' (field_path format market "prefix") = None.
Proof.
  intros Hget Hd Hfresh d' Hrt. eexists.
  split; [by apply update_metadata_writes|].
  split; [by apply get_metadata_after_upload|].
  subst d'. unfold stamped, window. rewrite Hfresh. cbn [entries stamp_key prefix_key].
  rewrite !dig_field_with_window, dig_with_window, insert_empty.
  by repeat split.
Qed.

(** C5.  Two calls of [update_metadata] for the same [(format, market)]
    without [yesterday] leave the document of a single call with the second
    prefix and time: [last_updated] and [prefix] of the window are
    overwritten, the other fields of the window and every value of the
    document away from these two fields, the windows of all other
    [(format, market)] among them, are found as before, present when they
    were present and absent when they were absent. *)
Theorem update_twice_overwrites bucket data_source data_source_type market format
    prefix1 prefix2 utcnow1 utcnow2 d :
  get_metadata json_loads bucket data_source data_source_type = Ok d →
  addressable d format market = true →
  let d1 := stamped d market format prefix1 false utcnow1 in
  let d2 := stamped d1 market format prefix2 false utcnow2 in
  json_loads (json_dumps d1) = Ok d1 →
  ∃ bucket1,
    update_metadata json_dumps json_loads bucket data_source data_source_type
      market format prefix1 false utcnow1 = Ok bucket1
    ∧ update_metadata json_dumps json_loads bucket1 data_source data_source_type
        market format prefix2 false utcnow2
      = Ok (<[metadata_blob data_source data_source_type := json_dumps d2]> bucket)
    ∧ d2 = stamped d market format prefix2 false utcnow2
    ∧ dig d2 (field_path format market "last_updated")
      = Some (JStr (datetime_str utcnow2))
    ∧ dig d2 (field_path format market "prefix") = Some (JStr prefix2)
    ∧ (∀ p, leaves p (field_path format market "last_updated") = true →
            leaves p (field_path format market "prefix") = true →
            dig d2 p = dig d p)
    ∧ (∀ format' market', (format', market') ≠ (format, market) →
         dig d2 ["last_success"; format'; market']
         = dig d ["last_success"; format'; market']).
Proof.
  intros Hget Hd d1 d2 Hrt.
  assert (d2 = stamped d market format prefix2 false utcnow2) as Hd2.
  { subst d2 d1. unfold stamped. rewrite with_window_twice, window_with_window.
    cbn [stamp_key prefix_key].
    rewrite (insert_insert_ne _ "last_updated" "prefix") by done.
    by rewrite !insert_insert_eq. }
  assert (∀ p, leaves p (field_path format market "last_updated") = true →
               leaves p (field_path format market "prefix") = true →
               dig d2 p = dig d p) as Hframe.
  { intros p H1 H2. rewrite Hd2.
    apply (dig_with_window_frame _ _ _ _ "last_updated" "prefix"); [|done..].
    intros k Hk1 Hk2. simpl. by rewrite !lookup_insert_ne. }
  eexists. split; [by apply update_metadata_writes|].
  split.
  { erewrite update_metadata_writes;
      [|by apply get_metadata_after_upload|apply addressable_with_window].
    by rewrite insert_insert_eq. }
  split; [done|].
  split.
  { rewrite Hd2. unfold stamped. rewrite dig_field_with_window.
    cbn [stamp_key prefix_key]. rewrite lookup_insert_ne by done.
    by rewrite lookup_insert_eq. }
  split.
  { rewrite Hd2. unfold stamped. rewrite dig_field_with_window.
    by rewrite lookup_insert_eq. }
  split; [done|].
  intros format' market' Hne. apply Hframe; simpl.
  - repeat case_bool_decide; simplify_eq; done.
  - repeat case_bool_decide; simplify_eq; done.
Qed.

(** C2, as the code has it.  [remove_yesterday_metdata] writes nothing when
    the document is absent.  On a document that exists it does not fail and
    writes the document back with [yesterday_last_updated] and
    [yesterday_prefix] removed from the window of [(format, market)], every
    value away from these two fields found as before.  When the window exists
    and has neither field the document written is the document read; when the
    window does not exist the document written has it, with no field, and
    the objects on the way to it. *)
Theorem clear_yesterday_effect bucket data_source data_source_type market format d :
  get_metadata json_loads bucket data_source data_source_type = Ok d →
  (is_None d = true →
     remove_yesterday_metdata json_dumps json_loads bucket data_source
       data_source_type market format = Ok bucket)
  ∧ (is_None d = false → addressable d format market = true →
     let d' := cleared d market format in
     let bucket' := <[metadata_blob data_source data_source_type := json_dumps d']> bucket in
     remove_yesterday_metdata json_dumps json_loads bucket data_source
       data_source_type market format = Ok bucket'
     ∧ dig d' ["last_success"; format; market]
       = Some (JDict (delete "yesterday_prefix"
                        (delete "yesterday_last_updated" (window d format market))))
     ∧ dig d' (field_path format market "yesterday_last_updated") = None
     ∧ dig d' (field_path format market "yesterday_prefix") = None
     ∧ (∀ p, leaves p (field_path format market "yesterday_last_updated") = true →
             leaves p (field_path format market "yesterday_prefix") = true →
             dig d' p = dig d p)
     ∧ (∀ w, dig d ["last_success"; format; market] = Some (JDict w) →
             w !! "yesterday_last_updated" = None →
             w !! "yesterday_prefix" = None →
             d' = d)
     ∧ (dig d ["last_success"; format; market] = None →
          d' = with_window d format market ∅)
     ∧ (json_loads (json_dumps d') = Ok d' →
          get_metadata json_loads bucket' data_source data_source_type = Ok d')).
Proof.
  intros Hget. split.
  { intros Hnone. unfold remove_yesterday_metdata. rewrite Hget. simpl.
    by rewrite Hnone. }
  intros Hnone Hd d' bucket'. split.
  { unfold remove_yesterday_metdata. rewrite Hget. simpl. rewrite Hnone.
    by rewrite clear_window_cleared. }
  subst d'. unfold cleared.
  split; [apply dig_with_window|].
  rewrite !dig_field_with_window.
  split.
  { rewrite lookup_delete_ne by done. by rewrite lookup_delete_eq. }
  split; [by rewrite lookup_delete_eq|].
  split.
  { intros p H1 H2.
    apply (dig_with_window_frame _ _ _ _ "yesterday_last_updated" "yesterday_prefix");
      [|done..].
    intros k Hk1 Hk2. by rewrite !lookup_delete_ne. }
  split.
  { intros w Hw H1 H2. unfold window. rewrite Hw. simpl.
    rewrite (delete_id w "yesterday_last_updated") by done.
    rewrite (delete_id w "yesterday_prefix") by done.
    apply with_window_id; [|done].
    unfold addressable in Hd. rewrite Hnone in Hd. simpl in Hd.
    by repeat (apply andb_prop in Hd as [Hd _]). }
  split.
  { intros Hfresh. unfold window. rewrite Hfresh. simpl.
    by rewrite !delete_empty. }
  apply get_metadata_after_upload.
Qed.

End MetadataProperties.

(** ** The properties on the sample buckets *)

Section OnSamples.
Import Py Metadata MetadataSpec.

Lemma sample_document_read :
  get_metadata Json.loads Sample.bucket "gfk" "matched_report" = Ok Sample.document.
Proof. vm_compute. reflexivity. Qed.

Lemma get_metadata_outcomes_witness :
  get_metadata Json.loads ∅ "gfk" "matched_report" = Ok JNull
  ∧ get_metadata Json.loads Sample.empty_document_bucket "gfk" "matched_report"
    = Ok (JDict ∅)
  ∧ get_metadata Json.loads Sample.broken_bucket "gfk" "matched_report"
    = Raise JSONDecodeError.
Proof.
  split; [|split].
  - apply (get_metadata_outcomes Json.loads ∅ "gfk" "matched_report").
    reflexivity.
  - apply (get_metadata_outcomes Json.loads Sample.empty_document_bucket
             "gfk" "matched_report") with "{}"; vm_compute; reflexivity.
  - apply (get_metadata_outcomes Json.loads Sample.broken_bucket
             "gfk" "matched_report").
    exists "{oops". split; vm_compute; reflexivity.
Defined.

Lemma update_then_get_witness :
  ∃ bucket',
    update_metadata Json.dumps Json.loads Sample.bucket "gfk" "matched_report"
      "us" "csv" "gfk/matched_report/_/2018/01/31/_/_/_/csv/" false Sample.utcnow
    = Ok bucket'
    ∧ get_metadata Json.loads bucket' "gfk" "matched_report"
      = Ok (stamped Sample.document "us" "csv"
              "gfk/matched_report/_/2018/01/31/_/_/_/csv/" false Sample.utcnow).
Proof.
  destruct (update_then_get Json.dumps Json.loads Sample.bucket
              "gfk" "matched_report" "us" "csv"
              "gfk/matched_report/_/2018/01/31/_/_/_/csv/" false
              Sample.called_at Sample.utcnow Sample.document)
    as (Hupdate & Hget & _).
  - vm_compute. reflexivity.
  - vm_compute. reflexivity.
  - vm_compute. reflexivity.
  - vm_compute. reflexivity.
  - eauto.
Defined.

(** the same on a bucket without the blob: the absent document *)
Lemma update_then_get_absent :
  ∃ bucket',
    update_metadata Json.dumps Json.loads ∅ "gfk" "matched_report"
      "us" "csv" "gfk/matched_report/_/2018/01/31/_/_/_/csv/" true Sample.utcnow
    = Ok bucket'
    ∧ get_metadata Json.loads bucket' "gfk" "matched_report"
      = Ok (JDict {[ "last_success" :=
              JDict {[ "csv" :=
                JDict {[ "us" :=
                  JDict {[ "yesterday_last_updated" := JStr "2018-02-01 09:30:00.001250";
                           "yesterday_prefix" :=
                             JStr "gfk/matched_report/_/2018/01/31/_/_/_/csv/" ]} ]} ]} ]}).
Proof. eexists. split; vm_compute; reflexivity. Qed.

Lemma update_yesterday_fresh_window_witness :
  ∃ bucket',
    update_metadata Json.dumps Json.loads Sample.bucket "gfk" "matched_report"
      "fr" "csv" "gfk/matched_report/FR/2018/01/31/_/_/_/csv/" true Sample.utcnow
    = Ok bucket'
    ∧ dig (stamped Sample.document "fr" "csv"
             "gfk/matched_report/FR/2018/01/31/_/_/_/csv/" true Sample.utcnow)
        (field_path "csv" "fr" "last_updated") = None.
Proof.
  destruct (update_yesterday_fresh_window Json.dumps Json.loads Sample.bucket
              "gfk" "matched_report" "fr" "csv"
              "gfk/matched_report/FR/2018/01/31/_/_/_/csv/"
              Sample.utcnow Sample.document)
    as (bucket' & Hupdate & _ & _ & _ & _ & Hlast & _).
  - vm_compute. reflexivity.
  - vm_compute. reflexivity.
  - vm_compute. reflexivity.
  - vm_compute. reflexivity.
  - eauto.
Defined.

Lemma update_twice_overwrites_witness :
  ∃ bucket1,
    update_metadata Json.dumps Json.loads Sample.bucket "gfk" "matched_report"
      "us" "csv" "gfk/matched_report/_/2018/01/31/_/_/_/csv/" false Sample.utcnow
    = Ok bucket1
    ∧ dig (stamped
             (stamped Sample.document "us" "csv"
                "gfk/matched_report/_/2018/01/31/_/_/_/csv/" false Sample.utcnow)
             "us" "csv" "gfk/matched_report/_/2018/02/01/_/_/_/csv/" false Sample.later)
        ["last_success"; "csv"; "de"]
      = Some Sample.window_de.
Proof.
  destruct (update_twice_overwrites Json.dumps Json.loads Sample.bucket
              "gfk" "matched_report" "us" "csv"
              "gfk/matched_report/_/2018/01/31/_/_/_/csv/"
              "gfk/matched_report/_/2018/02/01/_/_/_/csv/"
              Sample.utcnow Sample.later Sample.document)
    as (bucket1 & Hupdate & _ & _ & _ & _ & _ & Hothers).
  - vm_compute. reflexivity.
  - vm_compute. reflexivity.
  - vm_compute. reflexivity.
  - exists bucket1. split; [exact Hupdate|].
    rewrite (Hothers "csv" "de") by discriminate.
    vm_compute. reflexivity.
Defined.

Lemma clear_yesterday_effect_witness :
  remove_yesterday_metdata Json.dumps Json.loads Sample.bucket "gfk" "matched_report"
    "de" "csv"
  = Ok (<[Sample.blob := Json.dumps (cleared Sample.document "de" "csv")]> Sample.bucket)
  ∧ dig (cleared Sample.document "de" "csv")
      (field_path "csv" "de" "yesterday_prefix") = None.
Proof.
  destruct (clear_yesterday_effect Json.dumps Json.loads Sample.bucket
              "gfk" "matched_report" "de" "csv" Sample.document)
    as [_ Hpresent].
  - vm_compute. reflexivity.
  - destruct Hpresent as (Hwrite & _ & _ & Hprefix & _).
    + reflexivity.
    + vm_compute. reflexivity.
    + split; [exact Hwrite|exact Hprefix].
Defined.

(** C2, as stated, fails on a document without the window: the document
    [{}] has no [yesterday_*] field, and [remove_yesterday_metdata] replaces
    it with a document that has the window of [("csv", "us")]. *)
Lemma clear_yesterday_creates_window :
  get_metadata Json.loads Sample.empty_document_bucket "gfk" "matched_report"
  = Ok (JDict ∅)
  ∧ ∃ bucket',
      remove_yesterday_metdata Json.dumps Json.loads Sample.empty_document_bucket
        "gfk" "matched_report" "us" "csv" = Ok bucket'
      ∧ bucket' ≠ Sample.empty_document_bucket
      ∧ get_metadata Json.loads bucket' "gfk" "matched_report"
        = Ok (JDict {[ "last_success" := JDict {[ "csv" := JDict {[ "us" := JDict ∅ ]} ]} ]})
      ∧ get_metadata Json.loads bucket' "gfk" "matched_report"
        ≠ get_metadata Json.loads Sample.empty_document_bucket "gfk" "matched_report".
Proof.
  split; [vm_compute; reflexivity|].
  eexists. split; [vm_compute; reflexivity|].
  split; [intros H; vm_compute in H; discriminate H|].
  split; [vm_compute; reflexivity|].
  intros H. vm_compute in H. discriminate H.
Qed.

End OnSamples.

(** ** Further properties of the metadata functions *)

Section MoreMetadataProperties.
Import Py Metadata MetadataSpec Keys.
Variable json_dumps : json → string.
Variable json_loads : string → result json.
Implicit Types (bucket : gmap string string) (d : json).

Lemma customized_with_window d market format prefix custom_values yesterday utcnow :
  truthy custom_values = true →
  customized d market format prefix custom_values yesterday utcnow
  = with_window d format market
      (<["custom_values" := custom_values]>
         (<[prefix_key yesterday := JStr prefix]>
            (<[stamp_key yesterday := JStr (datetime_str utcnow)]>
               (window d format market)))).
Proof.
  intros Hcv. unfold customized, stamped. rewrite Hcv.
  by rewrite with_window_twice, window_with_window.
Qed.

Lemma update_custom_metadata_writes bucket data_source data_source_type
    market format prefix custom_values yesterday utcnow d :
  get_metadata json_loads bucket data_source data_source_type = Ok d →
  addressable d format market = true →
  update_custom_metadata json_dumps json_loads bucket data_source data_source_type
    market format prefix custom_values yesterday utcnow
  = Ok (<[metadata_blob data_source data_source_type :=
            json_dumps (customized d market format prefix custom_values
                          yesterday utcnow)]> bucket).
Proof.
  intros Hget Hd. unfold update_custom_metadata. rewrite Hget. simpl.
  rewrite stamp_window_stamped by done. simpl.
  destruct (truthy custom_values) eqn:Hcv.
  - rewrite customized_with_window by done. unfold stamped.
    by rewrite assign_with_window.
  - unfold customized. by rewrite Hcv.
Qed.

(** X1.  With custom values that are not empty, [update_custom_metadata]
    writes the document of [update_metadata] with [custom_values] of the
    window set to the value passed, whatever was there; the prefix and the
    time are written as by [update_metadata] and every value away from these
    three fields is found as before. *)
Theorem update_custom_metadata_sets_values bucket data_source data_source_type
    market format prefix custom_values yesterday utcnow d :
  get_metadata json_loads bucket data_source data_source_type = Ok d →
  addressable d format market = true →
  truthy custom_values = true →
  let d' := customized d market format prefix custom_values yesterday utcnow in
  update_custom_metadata json_dumps json_loads bucket data_source data_source_type
    market format prefix custom_values yesterday utcnow
  = Ok (<[metadata_blob data_source data_source_type := json_dumps d']> bucket)
  ∧ dig d' (field_path format market "custom_values") = Some custom_values
  ∧ dig d' (field_path format market (prefix_key yesterday)) = Some (JStr prefix)
  ∧ dig d' (field_path format market (stamp_key yesterday))
    = Some (JStr (datetime_str utcnow))
  ∧ ∀ p, leaves p (field_path format market "custom_values") = true →
         leaves p (field_path format market (prefix_key yesterday)) = true →
         leaves p (field_path format market (stamp_key yesterday)) = true →
         dig d' p = dig d p.
Proof.
  intros Hget Hd Hcv d'. split; [by apply update_custom_metadata_writes|].
  assert (∀ p, leaves p (field_path format market "custom_values") = true →
               leaves p (field_path format market (prefix_key yesterday)) = true →
               leaves p (field_path format market (stamp_key yesterday)) = true →
               dig d' p = dig d p) as Hframe.
  { intros p H1 H2 H3. subst d'. unfold customized. rewrite Hcv.
    transitivity (dig (stamped d market format prefix yesterday utcnow) p).
    - apply (dig_with_window_frame _ _ _ _ "custom_values" "custom_values");
        [|done..].
      intros k Hk _. by rewrite lookup_insert_ne.
    - apply (dig_with_window_frame _ _ _ _
               (prefix_key yesterday) (stamp_key yesterday)); [|done..].
      intros k Hk1 Hk2. by rewrite !lookup_insert_ne. }
  subst d'. rewrite customized_with_window by done.
  rewrite customized_with_window in Hframe by done.
  rewrite !dig_field_with_window.
  split; [by rewrite lookup_insert_eq|].
  split.
  { rewrite lookup_insert_ne by (by destruct yesterday).
    by rewrite lookup_insert_eq. }
  split; [|done].
  rewrite lookup_insert_ne by (by destruct yesterday).
  rewrite lookup_insert_ne by (by destruct yesterday).
  by rewrite lookup_insert_eq.
Qed.

(** X2.  With custom values that are empty, [None] or the empty dictionary
    among them, [update_custom_metadata] does what [update_metadata] does on
    every bucket; the [custom_values] of the window are then the ones that
    were there, so passing an empty dictionary does not clear them. *)
Theorem update_custom_metadata_without_values bucket data_source data_source_type
    market format prefix custom_values yesterday utcnow :
  truthy custom_values = false →
  update_custom_metadata json_dumps json_loads bucket data_source data_source_type
    market format prefix custom_values yesterday utcnow
  = update_metadata json_dumps json_loads bucket data_source data_source_type
      market format prefix yesterday utcnow
  ∧ truthy JNull = false ∧ truthy dict = false
  ∧ ∀ d, get_metadata json_loads bucket data_source data_source_type = Ok d →
         addressable d format market = true →
         ∃ d', update_custom_metadata json_dumps json_loads bucket data_source
                 data_source_type market format prefix custom_values yesterday utcnow
               = Ok (<[metadata_blob data_source data_source_type := json_dumps d']> bucket)
               ∧ dig d' (field_path format market "custom_values")
                 = dig d (field_path format market "custom_values").
Proof.
  intros Hcv. split; [|split; [done|split; [done|]]].
  - unfold update_custom_metadata, update_metadata.
    destruct (get_metadata _ _ _ _) as [d|e]; [|done]. simpl.
    destruct (stamp_window _ _ _ _ _ _) as [d'|e]; [|done]. simpl.
    by rewrite Hcv.
  - intros d Hget Hd. eexists.
    split; [by apply update_custom_metadata_writes|].
    unfold customized. rewrite Hcv.
    apply (dig_with_window_frame _ _ _ _
             (prefix_key yesterday) (stamp_key yesterday)).
    + intros k Hk1 Hk2. by rewrite !lookup_insert_ne.
    + simpl. rewrite !bool_decide_true by done. by destruct yesterday.
    + simpl. rewrite !bool_decide_true by done. by destruct yesterday.
Qed.

(** X3.  A blob that [json.loads] rejects is never overwritten: the three
    operations that read the document raise the exception of [json.loads]
    and write nothing. *)
Theorem malformed_blob_is_not_overwritten bucket data_source data_source_type
    market format prefix custom_values yesterday utcnow body e :
  bucket !! metadata_blob data_source data_source_type = Some body →
  json_loads body = Raise e →
  update_metadata json_dumps json_loads bucket data_source data_source_type
    market format prefix yesterday utcnow = Raise e
  ∧ update_custom_metadata json_dumps json_loads bucket data_source data_source_type
      market format prefix custom_values yesterday utcnow = Raise e
  ∧ remove_yesterday_metdata json_dumps json_loads bucket data_source
      data_source_type market format = Raise e.
Proof.
  intros Hbody He.
  assert (get_metadata json_loads bucket data_source data_source_type = Raise e)
    as Hget by (by rewrite get_metadata_lookup, Hbody).
  unfold update_metadata, update_custom_metadata, remove_yesterday_metdata.
  by rewrite Hget.
Qed.

(** X4.  On a stored document, [update_metadata] succeeds exactly when
    [last_success], the format and the market are objects where they are
    present, and raises [TypeError] exactly when one of them, or the document
    itself, is another kind of value. *)
Theorem update_metadata_succeeds_iff_addressable bucket data_source data_source_type
    market format prefix yesterday utcnow d :
  get_metadata json_loads bucket data_source data_source_type = Ok d →
  (addressable d format market = true
   ↔ ∃ bucket', update_metadata json_dumps json_loads bucket data_source
                  data_source_type market format prefix yesterday utcnow = Ok bucket')
  ∧ (addressable d format market = false
     ↔ update_metadata json_dumps json_loads bucket data_source
         data_source_type market format prefix yesterday utcnow = Raise TypeError).
Proof.
  intros Hget. destruct (addressable d format market) eqn:Hd.
  - rewrite (update_metadata_writes _ _ _ _ _ _ _ _ _ _ d) by done.
    split; split; eauto; done.
  - unfold update_metadata. rewrite Hget. simpl.
    rewrite stamp_window_raises by done. simpl.
    split; split; try done. by intros [? ?].
Qed.

End MoreMetadataProperties.

(** ** How the operations on a document compose *)

Section DocumentAlgebra.
Import Py Metadata MetadataSpec Keys.
Implicit Types (d : json) (w : gmap string json).









(** a document with a window put in keeps the shape of the data model *)
Lemma document_with_window d format market w :
  is_None d = true ∨ document d →
  document (with_window d format market w).
Proof.
  intros Hd. unfold document, with_window. rewrite lookup_insert_eq.
  apply map_Forall_insert_2.
  - apply map_Forall_insert_2; [done|].
    unfold markets. destruct Hd as [Hd|Hd]; [by destruct d|].
    destruct d as [| | | | | |top]; try done. simpl in *.
    destruct (top !! "last_success") as [[| | | | | |fm]|]; try done. simpl.
    destruct (fm !! format) as [f|] eqn:Hf; [|done].
    apply Hd in Hf. destruct f as [| | | | | |mm]; done.
  - unfold formats. destruct Hd as [Hd|Hd]; [by destruct d|].
    destruct d as [| | | | | |top]; try done. simpl in *.
    destruct (top !! "last_success") as [[| | | | | |fm]|]; done.
Qed.


Lemma cleared_idempotent d market format :
  cleared (cleared d market format) market format = cleared d market format.
Proof.
  unfold cleared. rewrite with_window_twice, window_with_window. f_equal.
  rewrite (delete_id _ "yesterday_last_updated").
  - by rewrite delete_delete_eq.
  - rewrite lookup_delete_ne by done. apply lookup_delete_eq.
Qed.



End DocumentAlgebra.

(** ** Blob names *)

Section BlobNames.
Import Keys.
Implicit Types s t r : string.

Lemma to_list_app s t : Str.to_list (s +:+ t) = Str.to_list s ++ Str.to_list t.
Proof.
  induction s as [|c s IH]; [done|].
  rewrite str_app_cons. simpl. by rewrite <-IH.
Qed.

Lemma to_list_inj s t : Str.to_list s = Str.to_list t → s = t.
Proof.
  intros H. rewrite <-(String.string_of_list_ascii_of_string s),
    <-(String.string_of_list_ascii_of_string t).
  unfold Str.to_list in H. by rewrite H.
Qed.

Lemma str_app_inj_r s s' t : s +:+ t = s' +:+ t → s = s'.
Proof.
  intros H. apply to_list_inj. apply (f_equal Str.to_list) in H.
  rewrite !to_list_app in H. by apply app_inv_tail in H.
Qed.

(** the last character of a text that ends with [t] is the last of [t] *)
Lemma last_char_app s t c :
  last (Str.to_list t) = Some c → last (Str.to_list (s +:+ t)) = Some c.
Proof. intros Ht. by rewrite to_list_app, last_app, Ht. Qed.

Lemma no_slash_cons c s :
  no_slash (String c s) = negb (bool_decide (c = "/"%char)) && no_slash s.
Proof. reflexivity. Qed.

Lemma no_slash_app s t : no_slash (s +:+ t) = no_slash s && no_slash t.
Proof.
  induction s as [|c s IH]; [done|].
  rewrite str_app_cons, !no_slash_cons, IH. by rewrite andb_assoc.
Qed.

(** two texts that are cut at their first [/] *)
Lemma split_at_slash s s' r r' :
  no_slash s = true → no_slash s' = true →
  s +:+ "/" +:+ r = s' +:+ "/" +:+ r' → s = s' ∧ r = r'.
Proof.
  revert s'. induction s as [|c s IH]; intros [|c' s'] Hs Hs' H.
  - change (String "/" r = String "/" r') in H. by injection H as ->.
  - change (String "/" r = String c' (s' +:+ "/" +:+ r')) in H.
    injection H as <- _. by rewrite no_slash_cons in Hs'.
  - change (String c (s +:+ "/" +:+ r) = String "/" r') in H.
    injection H as -> _. by rewrite no_slash_cons in Hs.
  - rewrite !str_app_cons in H. injection H as -> H.
    rewrite no_slash_cons in Hs, Hs'.
    apply andb_prop in Hs as [_ Hs]. apply andb_prop in Hs' as [_ Hs'].
    destruct (IH s' Hs Hs' H) as [-> ->]. done.
Qed.

Lemma metadata_blob_inj data_source data_source_type data_source' data_source_type' :
  no_slash data_source = true → no_slash data_source' = true →
  Metadata.metadata_blob data_source data_source_type
  = Metadata.metadata_blob data_source' data_source_type' →
  data_source = data_source' ∧ data_source_type = data_source_type'.
Proof.
  unfold Metadata.metadata_blob. intros Hs Hs' H.
  apply split_at_slash in H as [-> H]; [|done..].
  split; [done|]. by apply str_app_inj_r in H.
Qed.

Lemma metadata_blob_last data_source data_source_type :
  last (Str.to_list (Metadata.metadata_blob data_source data_source_type))
  = Some "n"%char.
Proof. unfold Metadata.metadata_blob. by do 3 apply last_char_app. Qed.

Lemma success_file_location_last data_source data_source_type :
  last (Str.to_list (Naming.get_success_file_location data_source data_source_type))
  = Some "S"%char.
Proof. unfold Naming.get_success_file_location. by do 3 apply last_char_app. Qed.

Lemma get_prefix_last data_source data_source_type format location
    year month day hour minute second :
  last (Str.to_list (Naming.get_prefix data_source data_source_type format location
                       year month day hour minute second))
  = Some "/"%char.
Proof. unfold Naming.get_prefix. by do 19 apply last_char_app. Qed.

(** X5.  The names of the metadata blob, of the success file and of a
    partition prefix can never coincide, whatever the data sources, types
    and partition components: the first ends with [metadata.json], the
    second with [_SUCCESS] and the third with [/]. *)
Theorem blob_names_never_collide
    (data_source1 data_source_type1 data_source2 data_source_type2 : string)
    (data_source3 data_source_type3 format location : string)
    (year month day hour minute second : option string) :
  let metadata := Metadata.metadata_blob data_source1 data_source_type1 in
  let success := Naming.get_success_file_location data_source2 data_source_type2 in
  let partition := Naming.get_prefix data_source3 data_source_type3 format location
                     year month day hour minute second in
  metadata ≠ success ∧ metadata ≠ partition ∧ success ≠ partition.
Proof.
  cbv zeta.
  pose proof (metadata_blob_last data_source1 data_source_type1) as Hm.
  pose proof (success_file_location_last data_source2 data_source_type2) as Hs.
  pose proof (get_prefix_last data_source3 data_source_type3 format location
                year month day hour minute second) as Hp.
  repeat split; intros H; rewrite H in *; congruence.
Qed.

End BlobNames.

(** ** Sequences of operations on a bucket *)

Section Sequences.
Import Py Metadata MetadataSpec Keys.
Variable json_dumps : json → string.
Variable json_loads : string → result json.
Implicit Types (bucket : gmap string string) (d : json).

Lemma remove_yesterday_writes bucket data_source data_source_type market format d :
  get_metadata json_loads bucket data_source data_source_type = Ok d →
  is_None d = false →
  addressable d format market = true →
  remove_yesterday_metdata json_dumps json_loads bucket data_source data_source_type
    market format
  = Ok (<[metadata_blob data_source data_source_type :=
            json_dumps (cleared d market format)]> bucket).
Proof.
  intros Hget Hnone Hd. unfold remove_yesterday_metdata.
  rewrite Hget. simpl. rewrite Hnone. by rewrite clear_window_cleared.
Qed.

(** what an operation returns is the bucket it was given, with at most the
    metadata blob of its data source changed *)
Lemma update_metadata_blob_only bucket data_source data_source_type
    market format prefix yesterday utcnow bucket' :
  update_metadata json_dumps json_loads bucket data_source data_source_type
    market format prefix yesterday utcnow = Ok bucket' →
  ∃ body, bucket' = <[metadata_blob data_source data_source_type := body]> bucket.
Proof.
  unfold update_metadata.
  destruct (get_metadata _ _ _ _) as [d|]; [|done]. simpl.
  destruct (stamp_window _ _ _ _ _ _) as [d'|]; [|done]. simpl.
  intros [= <-]. eauto.
Qed.

Lemma update_custom_metadata_blob_only bucket data_source data_source_type
    market format prefix custom_values yesterday utcnow bucket' :
  update_custom_metadata json_dumps json_loads bucket data_source data_source_type
    market format prefix custom_values yesterday utcnow = Ok bucket' →
  ∃ body, bucket' = <[metadata_blob data_source data_source_type := body]> bucket.
Proof.
  unfold update_custom_metadata.
  destruct (get_metadata _ _ _ _) as [d|]; [|done]. simpl.
  destruct (stamp_window _ _ _ _ _ _) as [d'|]; [|done]. simpl.
  destruct (if truthy custom_values then _ else _) as [d''|]; [|done]. simpl.
  intros [= <-]. eauto.
Qed.

Lemma remove_yesterday_blob_only bucket data_source data_source_type
    market format bucket' :
  remove_yesterday_metdata json_dumps json_loads bucket data_source data_source_type
    market format = Ok bucket' →
  bucket' = bucket
  ∨ ∃ body, bucket' = <[metadata_blob data_source data_source_type := body]> bucket.
Proof.
  unfold remove_yesterday_metdata.
  destruct (get_metadata _ _ _ _) as [d|]; [|done]. simpl.
  destruct (is_None d); [intros [= <-]; by left|].
  destruct (clear_window _ _ _) as [d'|]; [|done]. simpl.
  intros [= <-]. eauto.
Qed.

Lemma get_metadata_other_blob bucket blob body data_source data_source_type :
  blob ≠ metadata_blob data_source data_source_type →
  get_metadata json_loads (<[blob := body]> bucket) data_source data_source_type
  = get_metadata json_loads bucket data_source data_source_type.
Proof. intros Hne. by rewrite !get_metadata_lookup, lookup_insert_ne. Qed.

(** X6.  The metadata of another data source is not touched: for data
    sources without [/] in their names, an update, an update with custom
    values and a removal of yesterday's fields for one pair
    [(data_source, data_source_type)] leave what [get_metadata] returns for
    every other pair as it was.  Names with [/] can share a blob. *)
Theorem metadata_of_other_sources_untouched bucket data_source data_source_type
    data_source' data_source_type' market format prefix custom_values yesterday utcnow :
  no_slash data_source = true → no_slash data_source' = true →
  (data_source, data_source_type) ≠ (data_source', data_source_type') →
  metadata_blob data_source data_source_type
  ≠ metadata_blob data_source' data_source_type'
  ∧ (∀ bucket',
       update_metadata json_dumps json_loads bucket data_source data_source_type
         market format prefix yesterday utcnow = Ok bucket' →
       get_metadata json_loads bucket' data_source' data_source_type'
       = get_metadata json_loads bucket data_source' data_source_type')
  ∧ (∀ bucket',
       update_custom_metadata json_dumps json_loads bucket data_source
         data_source_type market format prefix custom_values yesterday utcnow
       = Ok bucket' →
       get_metadata json_loads bucket' data_source' data_source_type'
       = get_metadata json_loads bucket data_source' data_source_type')
  ∧ (∀ bucket',
       remove_yesterday_metdata json_dumps json_loads bucket data_source
         data_source_type market format = Ok bucket' →
       get_metadata json_loads bucket' data_source' data_source_type'
       = get_metadata json_loads bucket data_source' data_source_type')
  ∧ metadata_blob "a/b" "c" = metadata_blob "a" "b/c".
Proof.
  intros Hs Hs' Hne.
  assert (metadata_blob data_source data_source_type
          ≠ metadata_blob data_source' data_source_type') as Hblob.
  { intros H. apply metadata_blob_inj in H as [-> ->]; done. }
  split; [done|]. split; [|split; [|split; [|done]]].
  - intros bucket' [body ->]%update_metadata_blob_only.
    by apply get_metadata_other_blob.
  - intros bucket' [body ->]%update_custom_metadata_blob_only.
    by apply get_metadata_other_blob.
  - intros bucket' [->|[body ->]]%remove_yesterday_blob_only; [done|].
    by apply get_metadata_other_blob.
Qed.

(** X7.  [mark_success] writes the time as the whole content of the success
    file, over what was there, so that of two calls the second one counts;
    it touches no other blob.  Marking the success file of a data source
    changes no metadata document, and an update of a metadata document
    changes no success file. *)
Theorem mark_success_overwrites bucket location dt dt'
    data_source data_source_type data_source' data_source_type'
    market format prefix yesterday utcnow :
  mark_success bucket location dt !! location = Some (datetime_str dt)
  ∧ (∀ blob, blob ≠ location → mark_success bucket location dt !! blob = bucket !! blob)
  ∧ mark_success (mark_success bucket location dt) location dt'
    = mark_success bucket location dt'
  ∧ get_metadata json_loads
      (mark_success bucket
         (Naming.get_success_file_location data_source data_source_type) dt)
      data_source' data_source_type'
    = get_metadata json_loads bucket data_source' data_source_type'
  ∧ (∀ bucket',
       update_metadata json_dumps json_loads bucket data_source' data_source_type'
         market format prefix yesterday utcnow = Ok bucket' →
       bucket' !! Naming.get_success_file_location data_source data_source_type
       = bucket !! Naming.get_success_file_location data_source data_source_type).
Proof.
  unfold mark_success, upload_from_string.
  assert (Naming.get_success_file_location data_source data_source_type
          ≠ metadata_blob data_source' data_source_type') as Hne.
  { intros H.
    pose proof (success_file_location_last data_source data_source_type) as Hs.
    rewrite H, metadata_blob_last in Hs. discriminate Hs. }
  split; [apply lookup_insert_eq|].
  split; [intros blob Hblob; by rewrite lookup_insert_ne|].
  split; [apply insert_insert_eq|].
  split.
  - by apply get_metadata_other_blob.
  - intros bucket' [body ->]%update_metadata_blob_only.
    by rewrite lookup_insert_ne.
Qed.

(** X8.  An update keeps the shape of the data model: when the document
    read is absent or a Metadata Document, the document that
    [update_metadata] and [update_custom_metadata] write is a Metadata
    Document, and so is the one [remove_yesterday_metdata] writes. *)
Theorem operations_keep_document_shape bucket data_source data_source_type
    market format prefix custom_values yesterday utcnow d :
  get_metadata json_loads bucket data_source data_source_type = Ok d →
  is_None d = true ∨ document d →
  let blob := metadata_blob data_source data_source_type in
  (∃ d', update_metadata json_dumps json_loads bucket data_source data_source_type
           market format prefix yesterday utcnow
         = Ok (<[blob := json_dumps d']> bucket) ∧ document d')
  ∧ (∃ d', update_custom_metadata json_dumps json_loads bucket data_source
             data_source_type market format prefix custom_values yesterday utcnow
           = Ok (<[blob := json_dumps d']> bucket) ∧ document d')
  ∧ (document d →
     ∃ d', remove_yesterday_metdata json_dumps json_loads bucket data_source
             data_source_type market format
           = Ok (<[blob := json_dumps d']> bucket) ∧ document d').
Proof.
  intros Hget Hshape blob.
  assert (addressable d format market = true) as Hd.
  { destruct Hshape as [Hnone|Hdoc]; [by destruct d|by apply document_addressable]. }
  split; [|split].
  - eexists. split; [by apply update_metadata_writes|].
    by apply document_with_window.
  - eexists. split; [by apply update_custom_metadata_writes|].
    unfold customized. destruct (truthy custom_values).
    + apply document_with_window. right. by apply document_with_window.
    + by apply document_with_window.
  - intros Hdoc. eexists. split.
    + apply remove_yesterday_writes; [done| |done]. by destruct d.
    + apply document_with_window. by right.
Qed.


(** X10.  [remove_yesterday_metdata] is idempotent on a stored document: a
    second call writes what the first one wrote. *)
Theorem clear_yesterday_twice bucket data_source data_source_type market format d :
  get_metadata json_loads bucket data_source data_source_type = Ok d →
  is_None d = false →
  addressable d format market = true →
  json_loads (json_dumps (cleared d market format)) = Ok (cleared d market format) →
  ∃ bucket1,
    remove_yesterday_metdata json_dumps json_loads bucket data_source
      data_source_type market format = Ok bucket1
    ∧ remove_yesterday_metdata json_dumps json_loads bucket1 data_source
        data_source_type market format = Ok bucket1.
Proof.
  intros Hget Hnone Hd Hrt. eexists.
  split; [by apply remove_yesterday_writes|].
  erewrite remove_yesterday_writes;
    [|by apply get_metadata_after_upload|done|apply addressable_with_window].
  by rewrite insert_insert_eq, cleared_idempotent.
Qed.


End Sequences.

(** ** Further properties of the naming functions *)

Section MoreNamingProperties.
Import Keys.

Lemma length_be_bytes n x : length (SHA1.be_bytes n x) = n.
Proof. induction n as [|n IH]; simpl; [done|]. by rewrite IH. Qed.

Lemma length_digest msg : length (SHA1.digest msg) = 20.
Proof.
  unfold SHA1.digest.
  destruct (SHA1.blocks _ _ _) as [[[[h0 h1] h2] h3] h4].
  by rewrite !length_app, !length_be_bytes.
Qed.

Lemma sha1_hex_digit_is_hex n : is_hex (SHA1.hex_digit n) = true.
Proof.
  unfold SHA1.hex_digit. generalize (Z.to_nat n). intros m.
  do 16 (destruct m as [|m]; [by vm_compute|]). simpl. by destruct m.
Qed.

Lemma hex_bytes_shape (l : list Z) :
  length (mjoin (SHA1.hex_byte <$> l)) = 2 * length l
  ∧ Forall (λ c, is_hex c = true) (mjoin (SHA1.hex_byte <$> l)).
Proof.
  induction l as [|b l [IHlen IHhex]]; [by split|].
  split.
  - rewrite fmap_cons. simpl. rewrite IHlen. lia.
  - rewrite fmap_cons. simpl.
    repeat constructor; try apply sha1_hex_digit_is_hex. done.
Qed.

Lemma to_list_take n s : Str.to_list (Str.take n s) = take n (Str.to_list s).
Proof.
  unfold Str.take. revert n. induction s as [|c s IH]; intros [|n]; try done.
  simpl. by rewrite <-IH.
Qed.

Lemma to_list_of_list (l : list ascii) : Str.to_list (Str.of_list l) = l.
Proof. apply String.list_ascii_of_string_of_list_ascii. Qed.

Lemma length_to_list s : length (Str.to_list s) = String.length s.
Proof. induction s as [|c s IH]; simpl; [done|]. by rewrite IH. Qed.

Lemma hashed_shape text :
  String.length (Naming.hashed text) = 10
  ∧ all_chars is_hex (Naming.hashed text).
Proof.
  unfold all_chars, Naming.hashed, SHA1.hexdigest.
  destruct (hex_bytes_shape (SHA1.digest (SHA1.encode text))) as [Hlen Hhex].
  rewrite length_digest in Hlen.
  rewrite <-length_to_list, to_list_take, to_list_of_list.
  split; [rewrite length_take; lia|by apply Forall_take].
Qed.

(** X12.  Every bucket name is its fixed prefix, ten lower-case hexadecimal
    digits and the domain: 22 characters for the ingestion and modeling
    buckets, 31 for the DAGs and DataFlow buckets and 27 for the test
    bucket, whatever the length and the characters of the arguments. *)
Theorem bucket_names_are_hex (project_id org_name group_name repo_name : string) :
  let ingestion := Naming.get_ingestion_bucket_name project_id org_name group_name in
  let modeling :=
    Naming.get_modeling_bucket_name project_id org_name group_name repo_name in
  let dags := Naming.get_dags_bucket_name project_id in
  let dataflow := Naming.get_dataflow_bucket_name project_id in
  let test := Naming.get_test_bucket_name project_id in
  (∃ h, ingestion = h +:+ ".dataeng.com"
        ∧ String.length h = 10 ∧ all_chars is_hex h)
  ∧ (∃ h, modeling = h +:+ ".dataeng.com"
          ∧ String.length h = 10 ∧ all_chars is_hex h)
  ∧ (∃ h, dags = "composer-" +:+ h +:+ ".dataeng.com"
          ∧ dataflow = "dataflow-" +:+ h +:+ ".dataeng.com"
          ∧ test = "test-" +:+ h +:+ ".dataeng.com"
          ∧ String.length h = 10 ∧ all_chars is_hex h)
  ∧ String.length ingestion = 22 ∧ String.length modeling = 22
  ∧ String.length dags = 31 ∧ String.length dataflow = 31
  ∧ String.length test = 27.
Proof.
  cbv zeta.
  unfold Naming.get_ingestion_bucket_name, Naming.get_modeling_bucket_name,
    Naming.get_dags_bucket_name, Naming.get_dataflow_bucket_name,
    Naming.get_test_bucket_name.
  split; [eexists; split; [reflexivity|apply hashed_shape]|].
  split; [eexists; split; [reflexivity|apply hashed_shape]|].
  split.
  { eexists. split; [reflexivity|]. split; [reflexivity|].
    split; [reflexivity|apply hashed_shape]. }
  repeat split; rewrite !str_length_app, (proj1 (hashed_shape _)); reflexivity.
Qed.



End MoreNamingProperties.

Section PrefixAndDatasetProperties.
Import Keys.

Lemma all_chars_app P s t : all_chars P (s +:+ t) ↔ all_chars P s ∧ all_chars P t.
Proof. unfold all_chars. rewrite to_list_app. apply Forall_app. Qed.

Lemma all_chars_replicate P n c : P c = true → all_chars P (Str.replicate n c).
Proof.
  intros Hc. unfold all_chars. induction n as [|n IH]; simpl; by constructor.
Qed.

Lemma underscored_word s : all_chars Str.is_word (NamingSpec.underscored s).
Proof.
  unfold all_chars. induction s as [|c s IH]; simpl; constructor; [|done].
  unfold Str.is_word. by destruct (Str.is_alnum c) eqn:Hc; rewrite ?Hc.
Qed.

Lemma length_underscored s :
  String.length (NamingSpec.underscored s) = String.length s.
Proof. induction s as [|c s IH]; simpl; [done|]. by rewrite IH. Qed.

Lemma strip_keeps P c s :
  all_chars P s →
  all_chars P (Str.strip c s) ∧ String.length (Str.strip c s) ≤ String.length s.
Proof.
  intros Hs. destruct (strip_spec c s) as ([n [m Hsplit]] & _).
  rewrite Hsplit in Hs at 1.
  apply all_chars_app in Hs as [_ [Hs _]%all_chars_app].
  split; [done|].
  rewrite Hsplit at 2. rewrite !str_length_app. lia.
Qed.

Lemma uuid_hex_digit_word n : Str.is_word (UUID.hex_digit n) = true.
Proof.
  unfold UUID.hex_digit. generalize (N.to_nat n). intros m.
  do 16 (destruct m as [|m]; [by vm_compute|]). simpl. by destruct m.
Qed.

Lemma uuid_hex_word k n : Forall (λ c, Str.is_word c = true) (UUID.hex k n).
Proof.
  revert n. induction k as [|k IH]; intros n; simpl; [constructor|].
  apply Forall_app. split; [apply IH|].
  constructor; [apply uuid_hex_digit_word|constructor].
Qed.

Lemma random_string_word uuid4 :
  all_chars Str.is_word (Str.replace "-" "_" (UUID.to_str uuid4)).
Proof.
  rewrite random_string_grouped. unfold all_chars, UUID.grouped.
  rewrite to_list_of_list.
  pose proof (uuid_hex_word 32 uuid4) as Hhex.
  repeat first
    [ apply Forall_app; split
    | apply Forall_cons; split; [reflexivity|]
    | by apply Forall_take
    | by apply Forall_drop
    | by apply Forall_take, Forall_drop ].
Qed.

(** X14.  A staging dataset identifier is made of letters, digits and
    underscores only, whatever characters the arguments hold, and is at most
    46 characters longer than the two arguments together. *)
Theorem staging_dataset_id_is_identifier (data_source data_source_type : string)
    (uuid4 : N) :
  let id := Naming.get_staging_dataset_id data_source data_source_type uuid4 in
  all_chars Str.is_word id
  ∧ 46 ≤ String.length id
  ∧ String.length id ≤ String.length data_source + String.length data_source_type + 46.
Proof.
  cbv zeta. unfold Naming.get_staging_dataset_id.
  rewrite !sub_nonword_underscored.
  destruct (strip_keeps Str.is_word "_" _ (underscored_word data_source))
    as [Hds Hlds].
  destruct (strip_keeps Str.is_word "_" _ (underscored_word data_source_type))
    as [Hdst Hldst].
  rewrite length_underscored in Hlds, Hldst.
  split.
  - repeat (apply all_chars_app; split); try done.
    + by repeat constructor.
    + by repeat constructor.
    + by repeat constructor.
    + apply random_string_word.
  - rewrite !str_length_app, random_string_length. simpl. lia.
Qed.

Lemma zfill_idempotent s width :
  Str.zfill (Str.zfill s width) width = Str.zfill s width.
Proof.
  unfold Str.zfill at 1.
  rewrite (zfill_zero_padded s width) at 1. rewrite length_zero_padded.
  destruct (Nat.leb_spec width (max width (String.length s))) as [_|Hlt]; [done|lia].
Qed.

Lemma zfill_with_len_twice v len :
  Naming._zfill_with_len (Naming._zfill_with_len v len) len
  = Naming._zfill_with_len v len.
Proof.
  destruct v as [v|]; [|done]. unfold Naming._zfill_with_len.
  case_bool_decide as Hv.
  - by rewrite bool_decide_true.
  - case_bool_decide as Hz; [done|]. by rewrite zfill_idempotent.
Qed.

(** X15.  Padding is idempotent: [get_prefix] returns the same prefix for
    time components that were padded before as for the components
    themselves.  An empty time component is not read as the placeholder: it
    is written as zeros of the whole width. *)
Theorem get_prefix_padding_idempotent
    (data_source data_source_type format location : string)
    (year month day hour minute second : option string) :
  (∀ v len, Naming._zfill_with_len (Naming._zfill_with_len v len) len
            = Naming._zfill_with_len v len)
  ∧ Naming.get_prefix data_source data_source_type format location
      (Naming._zfill_with_len year 4) (Naming._zfill_with_len month 2)
      (Naming._zfill_with_len day 2) (Naming._zfill_with_len hour 2)
      (Naming._zfill_with_len minute 2) (Naming._zfill_with_len second 2)
    = Naming.get_prefix data_source data_source_type format location
        year month day hour minute second
  ∧ (∀ len, Naming._zfill_with_len (Some EmptyString) len
            = Some (Str.replicate len "0"))
  ∧ Naming.get_prefix data_source data_source_type format location
      (Some EmptyString) (Some EmptyString) (Some "_") (Some "_") (Some "_") (Some "_")
    = data_source +:+ "/" +:+ data_source_type +:+ "/" +:+ location
      +:+ "/0000/00/_/_/_/_/" +:+ format +:+ "/".
Proof.
  split; [apply zfill_with_len_twice|].
  split; [unfold Naming.get_prefix; by rewrite !zfill_with_len_twice|].
  split; [by intros [|len]|].
  reflexivity.
Qed.

Lemma no_slash_replicate n : no_slash (Str.replicate n "0") = true.
Proof. induction n as [|n IH]; [done|]. simpl. by rewrite no_slash_cons, IH. Qed.

Lemma no_slash_shown width v :
  no_slash_opt v = true → no_slash (NamingSpec.shown width v) = true.
Proof.
  destruct v as [v|]; [|done]. simpl. intros Hv.
  unfold NamingSpec.time_field. case_bool_decide; [done|].
  unfold NamingSpec.zero_padded. destruct v as [|c rest].
  - apply no_slash_replicate.
  - rewrite no_slash_cons in Hv. apply andb_prop in Hv as [Hc Hrest].
    destruct (Str.is_sign c).
    + by rewrite no_slash_cons, Hc, no_slash_app, no_slash_replicate.
    + by rewrite no_slash_app, no_slash_replicate, no_slash_cons, Hc.
Qed.

(** X16.  Partitions whose components have no [/] get different prefixes
    unless they are the same partition: equal prefixes have the same data
    source, type, location and format, and the same time components as they
    are written, that is after padding. *)
Theorem get_prefix_injective
    (data_source data_source_type format location : string)
    (year month day hour minute second : option string)
    (data_source' data_source_type' format' location' : string)
    (year' month' day' hour' minute' second' : option string) :
  slash_free_partition data_source data_source_type location
    year month day hour minute second = true →
  slash_free_partition data_source' data_source_type' location'
    year' month' day' hour' minute' second' = true →
  Naming.get_prefix data_source data_source_type format location
    year month day hour minute second
  = Naming.get_prefix data_source' data_source_type' format' location'
      year' month' day' hour' minute' second' →
  data_source = data_source' ∧ data_source_type = data_source_type'
  ∧ location = location' ∧ format = format'
  ∧ NamingSpec.shown 4 year = NamingSpec.shown 4 year'
  ∧ NamingSpec.shown 2 month = NamingSpec.shown 2 month'
  ∧ NamingSpec.shown 2 day = NamingSpec.shown 2 day'
  ∧ NamingSpec.shown 2 hour = NamingSpec.shown 2 hour'
  ∧ NamingSpec.shown 2 minute = NamingSpec.shown 2 minute'
  ∧ NamingSpec.shown 2 second = NamingSpec.shown 2 second'.
Proof.
  unfold slash_free_partition. intros Hp Hp' H.
  repeat (apply andb_prop in Hp as [Hp ?]).
  repeat (apply andb_prop in Hp' as [Hp' ?]).
  rewrite !get_prefix_shown in H.
  apply split_at_slash in H as [-> H]; [|done..].
  apply split_at_slash in H as [-> H]; [|done..].
  apply split_at_slash in H as [-> H]; [|done..].
  apply split_at_slash in H as [Hy H]; [|by apply no_slash_shown..].
  apply split_at_slash in H as [Hmo H]; [|by apply no_slash_shown..].
  apply split_at_slash in H as [Hd H]; [|by apply no_slash_shown..].
  apply split_at_slash in H as [Hh H]; [|by apply no_slash_shown..].
  apply split_at_slash in H as [Hmi H]; [|by apply no_slash_shown..].
  apply split_at_slash in H as [Hs H]; [|by apply no_slash_shown..].
  apply str_app_inj_r in H as ->.
  by repeat split.
Qed.

End PrefixAndDatasetProperties.

(** ** The further properties on the sample buckets *)

Section MoreOnSamples.
Import Py Metadata MetadataSpec Keys.

Lemma update_custom_metadata_sets_values_witness :
  dig (customized Sample.document "us" "csv" "p" (JDict {[ "rows" := JInt 7 ]})
         false Sample.utcnow)
    (field_path "csv" "us" "custom_values")
  = Some (JDict {[ "rows" := JInt 7 ]}).
Proof.
  destruct (update_custom_metadata_sets_values Json.dumps Json.loads Sample.bucket
              "gfk" "matched_report" "us" "csv" "p" (JDict {[ "rows" := JInt 7 ]})
              false Sample.utcnow Sample.document) as (_ & Hcv & _).
  - vm_compute. reflexivity.
  - vm_compute. reflexivity.
  - vm_compute. reflexivity.
  - exact Hcv.
Defined.

Lemma update_custom_metadata_without_values_witness :
  update_custom_metadata Json.dumps Json.loads Sample.bucket "gfk" "matched_report"
    "us" "csv" "p" (JDict ∅) false Sample.utcnow
  = update_metadata Json.dumps Json.loads Sample.bucket "gfk" "matched_report"
      "us" "csv" "p" false Sample.utcnow.
Proof.
  apply (update_custom_metadata_without_values Json.dumps Json.loads Sample.bucket
           "gfk" "matched_report" "us" "csv" "p" (JDict ∅) false Sample.utcnow).
  vm_compute. reflexivity.
Defined.

Lemma malformed_blob_is_not_overwritten_witness :
  update_metadata Json.dumps Json.loads Sample.broken_bucket "gfk" "matched_report"
    "us" "csv" "p" false Sample.utcnow = Raise JSONDecodeError.
Proof.
  apply (malformed_blob_is_not_overwritten Json.dumps Json.loads Sample.broken_bucket
           "gfk" "matched_report" "us" "csv" "p" JNull false Sample.utcnow "{oops").
  - vm_compute. reflexivity.
  - vm_compute. reflexivity.
Defined.

Lemma update_metadata_succeeds_iff_addressable_witness :
  update_metadata Json.dumps Json.loads Sample.odd_bucket "gfk" "matched_report"
    "us" "csv" "p" false Sample.utcnow = Raise TypeError.
Proof.
  apply (update_metadata_succeeds_iff_addressable Json.dumps Json.loads
           Sample.odd_bucket "gfk" "matched_report" "us" "csv" "p" false
           Sample.utcnow Sample.odd_document).
  - vm_compute. reflexivity.
  - vm_compute. reflexivity.
Defined.

Lemma metadata_of_other_sources_untouched_witness :
  ∃ bucket',
    update_metadata Json.dumps Json.loads Sample.two_sources "gfk" "matched_report"
      "us" "csv" "p" false Sample.utcnow = Ok bucket'
    ∧ get_metadata Json.loads bucket' "gfk" "price_parity"
      = get_metadata Json.loads Sample.two_sources "gfk" "price_parity".
Proof.
  destruct (metadata_of_other_sources_untouched Json.dumps Json.loads
              Sample.two_sources "gfk" "matched_report" "gfk" "price_parity"
              "us" "csv" "p" JNull false Sample.utcnow)
    as (_ & Hupdate & _).
  - vm_compute. reflexivity.
  - vm_compute. reflexivity.
  - discriminate.
  - eexists. split; [vm_compute; reflexivity|].
    apply Hupdate. vm_compute. reflexivity.
Defined.

Lemma operations_keep_document_shape_witness :
  ∃ d', update_metadata Json.dumps Json.loads ∅ "gfk" "matched_report"
          "us" "csv" "p" false Sample.utcnow
        = Ok (<[Sample.blob := Json.dumps d']> ∅) ∧ document d'.
Proof.
  apply (operations_keep_document_shape Json.dumps Json.loads ∅
           "gfk" "matched_report" "us" "csv" "p" JNull false Sample.utcnow JNull).
  - vm_compute. reflexivity.
  - left. reflexivity.
Defined.


Lemma clear_yesterday_twice_witness :
  ∃ bucket1,
    remove_yesterday_metdata Json.dumps Json.loads Sample.bucket "gfk" "matched_report"
      "de" "csv" = Ok bucket1
    ∧ remove_yesterday_metdata Json.dumps Json.loads bucket1 "gfk" "matched_report"
        "de" "csv" = Ok bucket1.
Proof.
  apply (clear_yesterday_twice Json.dumps Json.loads Sample.bucket
           "gfk" "matched_report" "de" "csv" Sample.document).
  - vm_compute. reflexivity.
  - reflexivity.
  - vm_compute. reflexivity.
  - vm_compute. reflexivity.
Defined.


Lemma get_prefix_injective_witness :
  NamingSpec.shown 2 (Some "1") = NamingSpec.shown 2 (Some "01").
Proof.
  destruct (get_prefix_injective
              "gfk" "matched_report" "csv" "US"
              (Some "2018") (Some "1") (Some "31") (Some "_") (Some "_") (Some "_")
              "gfk" "matched_report" "csv" "US"
              (Some "2018") (Some "01") (Some "31") (Some "_") (Some "_") (Some "_"))
    as (_ & _ & _ & _ & _ & Hmonth & _).
  - reflexivity.
  - reflexivity.
  - reflexivity.
  - exact Hmonth.
Defined.

End MoreOnSamples.
